(** * Root key material of the hierarchical-deterministic wallet

    A verification development for [bitcoinutils/hdwallet.py]: the class
    [HDW] (seed and mnemonic derivation of the master key, and the parsing
    of a serialized extended private key) is embedded as Rocq functions and
    its documented behaviour is stated and proved, or refuted, against that
    embedding.

    Conventions.
    - A Python [bytes] object is a [list byte].
    - A Python [str] is a [string] holding the UTF-8 encoding of its text, so
      that [s.encode("utf-8")] is [list_byte_of_string s] and [a + b] is
      [a ++ b].
    - A Python integer is a [Z].
    - A method of [HDW] is a function from the instance before the call to
      an outcome (a value or a raised exception) and the instance after it. *)

From Stdlib.Strings Require Import String Ascii Byte.
From Stdlib Require Import ZArith List Bool Lia PeanoNat.
Import ListNotations.

Local Open Scope Z_scope.

Definition bytes := list byte.

Definition byte_to_Z (b : byte) : Z := Z.of_N (Byte.to_N b).

Definition byte_of_Z (z : Z) : byte :=
  match Byte.of_N (Z.to_N (z mod 256)) with
  | Some b => b
  | None => x00
  end.

(** [b"..."] literals. *)
Definition b_ (s : string) : bytes := list_byte_of_string s.

(** Python slices [l[lo:hi]], [l[:hi]] and [l[lo:]] for non-negative
    bounds; a bound past the end is clipped, as in Python. *)
Definition slice {A} (lo hi : nat) (l : list A) : list A :=
  firstn (hi - lo) (skipn lo l).
Definition slice_to {A} (hi : nat) (l : list A) : list A := firstn hi l.
Definition slice_from {A} (lo : nat) (l : list A) : list A := skipn lo l.

(** [int.from_bytes(b, "big")]. *)
Definition int_from_bytes_big (b : bytes) : Z :=
  fold_left (fun acc x => acc * 256 + byte_to_Z x) b 0.

(** [n.to_bytes(len, "big")] for [0 <= n < 256 ^ len], the only use made of
    it here. *)
Fixpoint int_to_bytes_big (len : nat) (n : Z) : bytes :=
  match len with
  | O => []
  | S k => int_to_bytes_big k (n / 256) ++ [byte_of_Z n]
  end.

Fixpoint xor_bytes (a b : bytes) : bytes :=
  match a, b with
  | x :: a', y :: b' => byte_of_Z (Z.lxor (byte_to_Z x) (byte_to_Z y)) :: xor_bytes a' b'
  | _, _ => []
  end.

Fixpoint bytes_eqb (a b : bytes) : bool :=
  match a, b with
  | [], [] => true
  | x :: a', y :: b' => Byte.eqb x y && bytes_eqb a' b'
  | _, _ => false
  end.

(** ** SHA-512 (FIPS 180-4), the digest behind [hashlib.sha512] *)
Module SHA512.

Definition mask : Z := 2 ^ 64 - 1.
Definition add64 (x y : Z) : Z := Z.land (x + y) mask.
Definition rotr (n x : Z) : Z :=
  Z.lor (Z.shiftr x n) (Z.land (Z.shiftl x (64 - n)) mask).
Definition shr (n x : Z) : Z := Z.shiftr x n.

Definition Ch (x y z : Z) : Z :=
  Z.lxor (Z.land x y) (Z.land (Z.lxor x mask) z).
Definition Maj (x y z : Z) : Z :=
  Z.lxor (Z.lxor (Z.land x y) (Z.land x z)) (Z.land y z).
Definition Sigma0 (x : Z) : Z := Z.lxor (Z.lxor (rotr 28 x) (rotr 34 x)) (rotr 39 x).
Definition Sigma1 (x : Z) : Z := Z.lxor (Z.lxor (rotr 14 x) (rotr 18 x)) (rotr 41 x).
Definition sigma0 (x : Z) : Z := Z.lxor (Z.lxor (rotr 1 x) (rotr 8 x)) (shr 7 x).
Definition sigma1 (x : Z) : Z := Z.lxor (Z.lxor (rotr 19 x) (rotr 61 x)) (shr 6 x).

Definition K : list Z :=
[
  0x428a2f98d728ae22; 0x7137449123ef65cd; 0xb5c0fbcfec4d3b2f; 0xe9b5dba58189dbbc;
  0x3956c25bf348b538; 0x59f111f1b605d019; 0x923f82a4af194f9b; 0xab1c5ed5da6d8118;
  0xd807aa98a3030242; 0x12835b0145706fbe; 0x243185be4ee4b28c; 0x550c7dc3d5ffb4e2;
  0x72be5d74f27b896f; 0x80deb1fe3b1696b1; 0x9bdc06a725c71235; 0xc19bf174cf692694;
  0xe49b69c19ef14ad2; 0xefbe4786384f25e3; 0x0fc19dc68b8cd5b5; 0x240ca1cc77ac9c65;
  0x2de92c6f592b0275; 0x4a7484aa6ea6e483; 0x5cb0a9dcbd41fbd4; 0x76f988da831153b5;
  0x983e5152ee66dfab; 0xa831c66d2db43210; 0xb00327c898fb213f; 0xbf597fc7beef0ee4;
  0xc6e00bf33da88fc2; 0xd5a79147930aa725; 0x06ca6351e003826f; 0x142929670a0e6e70;
  0x27b70a8546d22ffc; 0x2e1b21385c26c926; 0x4d2c6dfc5ac42aed; 0x53380d139d95b3df;
  0x650a73548baf63de; 0x766a0abb3c77b2a8; 0x81c2c92e47edaee6; 0x92722c851482353b;
  0xa2bfe8a14cf10364; 0xa81a664bbc423001; 0xc24b8b70d0f89791; 0xc76c51a30654be30;
  0xd192e819d6ef5218; 0xd69906245565a910; 0xf40e35855771202a; 0x106aa07032bbd1b8;
  0x19a4c116b8d2d0c8; 0x1e376c085141ab53; 0x2748774cdf8eeb99; 0x34b0bcb5e19b48a8;
  0x391c0cb3c5c95a63; 0x4ed8aa4ae3418acb; 0x5b9cca4f7763e373; 0x682e6ff3d6b2b8a3;
  0x748f82ee5defb2fc; 0x78a5636f43172f60; 0x84c87814a1f0ab72; 0x8cc702081a6439ec;
  0x90befffa23631e28; 0xa4506cebde82bde9; 0xbef9a3f7b2c67915; 0xc67178f2e372532b;
  0xca273eceea26619c; 0xd186b8c721c0c207; 0xeada7dd6cde0eb1e; 0xf57d4f7fee6ed178;
  0x06f067aa72176fba; 0x0a637dc5a2c898a6; 0x113f9804bef90dae; 0x1b710b35131c471b;
  0x28db77f523047d84; 0x32caab7b40c72493; 0x3c9ebe0a15c9bebc; 0x431d67c49c100d4c;
  0x4cc5d4becb3e42b6; 0x597f299cfc657e2a; 0x5fcb6fab3ad6faec; 0x6c44198c4a475817
].

Record state := mkState { ha : Z; hb : Z; hc : Z; hd : Z; he : Z; hf : Z; hg : Z; hh : Z }.

Definition H0 : state :=
  mkState 0x6a09e667f3bcc908 0xbb67ae8584caa73b 0x3c6ef372fe94f82b 0xa54ff53a5f1d36f1
          0x510e527fade682d1 0x9b05688c2b3e6c1f 0x1f83d9abfb41bd6b 0x5be0cd19137e2179.

(** Padding: a [0x80] byte, zero bytes up to 112 modulo 128, and the
    message length in bits on 16 bytes. *)
Definition pad (msg : bytes) : bytes :=
  let n := length msg in
  let zeros := ((128 - (n + 17) mod 128) mod 128)%nat in
  msg ++ [x80] ++ repeat x00 zeros ++ int_to_bytes_big 16 (8 * Z.of_nat n).

Fixpoint words (count : nat) (block : bytes) : list Z :=
  match count with
  | O => []
  | S k => int_from_bytes_big (firstn 8 block) :: words k (skipn 8 block)
  end.

(** The message schedule, most recent word first: [w] holds
    [W(t-1), W(t-2), ...] and the next word is built from
    [W(t-2)], [W(t-7)], [W(t-15)] and [W(t-16)]. *)
Fixpoint extend (count : nat) (w : list Z) : list Z :=
  match count with
  | O => w
  | S k =>
      let wt := add64 (add64 (sigma1 (nth 1 w 0)) (nth 6 w 0))
                      (add64 (sigma0 (nth 14 w 0)) (nth 15 w 0)) in
      extend k (wt :: w)
  end.

Definition schedule (block : bytes) : list Z :=
  rev (extend 64 (rev (words 16 block))).

Definition round (s : state) (kw : Z * Z) : state :=
  let '(k, w) := kw in
  let t1 := add64 (add64 (add64 (hh s) (Sigma1 (he s))) (add64 (Ch (he s) (hf s) (hg s)) k)) w in
  let t2 := add64 (Sigma0 (ha s)) (Maj (ha s) (hb s) (hc s)) in
  mkState (add64 t1 t2) (ha s) (hb s) (hc s) (add64 (hd s) t1) (he s) (hf s) (hg s).

Definition compress (s : state) (block : bytes) : state :=
  let r := fold_left round (combine K (schedule block)) s in
  mkState (add64 (ha s) (ha r)) (add64 (hb s) (hb r)) (add64 (hc s) (hc r))
          (add64 (hd s) (hd r)) (add64 (he s) (he r)) (add64 (hf s) (hf r))
          (add64 (hg s) (hg r)) (add64 (hh s) (hh r)).

Fixpoint blocks (count : nat) (s : state) (data : bytes) : state :=
  match count with
  | O => s
  | S k => blocks k (compress s (firstn 128 data)) (skipn 128 data)
  end.

Definition output (s : state) : bytes :=
  int_to_bytes_big 8 (ha s) ++ int_to_bytes_big 8 (hb s) ++
  int_to_bytes_big 8 (hc s) ++ int_to_bytes_big 8 (hd s) ++
  int_to_bytes_big 8 (he s) ++ int_to_bytes_big 8 (hf s) ++
  int_to_bytes_big 8 (hg s) ++ int_to_bytes_big 8 (hh s).

Definition digest (msg : bytes) : bytes :=
  let p := pad msg in
  output (blocks (length p / 128) H0 p).

Definition digest_size : nat := 64.
Definition block_size : nat := 128.

End SHA512.

(** ** HMAC (RFC 2104) as [hmac.new(key, msg, hashlib.sha512).digest()] *)
Module HMAC.

Definition block_key (key : bytes) : bytes :=
  let k := if (SHA512.block_size <? length key)%nat then SHA512.digest key else key in
  k ++ repeat x00 (SHA512.block_size - length k).

Definition hmac_sha512 (key msg : bytes) : bytes :=
  let k := block_key key in
  let inner := SHA512.digest (xor_bytes k (repeat x36 SHA512.block_size) ++ msg) in
  SHA512.digest (xor_bytes k (repeat x5c SHA512.block_size) ++ inner).

End HMAC.

(** ** PBKDF2 (RFC 8018) and [hashlib.pbkdf2_hmac("sha512", ...)] *)
Module PBKDF2.

Section Generic.
Variable prf : bytes -> bytes -> bytes.
Variable hLen : nat.

(** One pass of the chain: the next [U] and the running exclusive or. *)
Definition step (password : bytes) (ut : bytes * bytes) : bytes * bytes :=
  let u := prf password (fst ut) in (u, xor_bytes (snd ut) u).

Definition F (password salt : bytes) (c : Z) (i : Z) : bytes :=
  let u1 := prf password (salt ++ int_to_bytes_big 4 i) in
  snd (N.iter (Z.to_N (c - 1)) (step password) (u1, u1)).

Fixpoint T (password salt : bytes) (c : Z) (count : nat) (i : Z) : bytes :=
  match count with
  | O => []
  | S k => F password salt c i ++ T password salt c k (i + 1)
  end.

Definition pbkdf2 (password salt : bytes) (c : Z) (dkLen : nat) : bytes :=
  firstn dkLen (T password salt c ((dkLen + hLen - 1) / hLen)%nat 1).
End Generic.

(** [hashlib.pbkdf2_hmac("sha512", password, salt, iterations, dklen)];
    [dklen=None] means the digest size. *)
Definition pbkdf2_hmac_sha512
    (password salt : bytes) (iterations : Z) (dklen : option nat) : bytes :=
  let n := match dklen with Some n => n | None => SHA512.digest_size end in
  pbkdf2 HMAC.hmac_sha512 SHA512.digest_size password salt iterations n.

End PBKDF2.

(** ** Exceptions and outcomes *)

Inductive exn : Type :=
| ValueError (msg : string)
| BinasciiError (msg : string)   (* binascii.Error, a subclass of ValueError *)
| StructError (msg : string)     (* struct.error *)
| MalformedPointError.           (* ecdsa.keys.MalformedPointError *)

Inductive outcome (A : Type) : Type :=
| Return (a : A)
| Raise (e : exn).
Arguments Return {A} a.
Arguments Raise {A} e.

(** The error kinds of the design document are the [ValueError]s the code
    raises, told apart by their message. *)
Definition UnsupportedMnemonicLength : exn :=
  ValueError "Unsupported number of words in mnemonic.".
Definition InvalidExtendedKeyLength : exn := ValueError "Invalid xprivate key.".
Definition NotARootKey : exn := ValueError "Invalid root xprivate key.".

(** ** [binascii] *)
Module binascii.

Definition hexdigit (n : Z) : byte :=
  byte_of_Z (if n <? 10 then 48 + n else 87 + n).

(** [b2a_hex(data)]: two lower-case hexadecimal digits per byte. *)
Definition b2a_hex (data : bytes) : bytes :=
  flat_map (fun x => [hexdigit (byte_to_Z x / 16); hexdigit (byte_to_Z x mod 16)]) data.

Definition digit_value (c : byte) : option Z :=
  let n := byte_to_Z c in
  if (48 <=? n) && (n <=? 57) then Some (n - 48)
  else if (97 <=? n) && (n <=? 102) then Some (n - 87)
  else if (65 <=? n) && (n <=? 70) then Some (n - 55)
  else None.

Fixpoint a2b (s : bytes) : outcome bytes :=
  match s with
  | [] => Return []
  | [_] => Raise (BinasciiError "Odd-length string")
  | hi :: lo :: rest =>
      match digit_value hi, digit_value lo with
      | Some h, Some l =>
          match a2b rest with
          | Return r => Return (byte_of_Z (16 * h + l) :: r)
          | Raise e => Raise e
          end
      | _, _ => Raise (BinasciiError "Non-hexadecimal digit found")
      end
  end.

(** [unhexlify(hexstr)] on a [str]: the text must be ASCII, of even
    length, and made of hexadecimal digits, checked in this order. *)
Definition unhexlify (hexstr : string) : outcome bytes :=
  let s := list_byte_of_string hexstr in
  if forallb (fun c => byte_to_Z c <? 128) s then
    if Nat.even (length s) then a2b s
    else Raise (BinasciiError "Odd-length string")
  else Raise (ValueError "string argument should contain only ASCII characters").

End binascii.

(** ** [struct.unpack(">L", b)[0]] *)
Definition struct_unpack_BE_L (b : bytes) : outcome Z :=
  if (length b =? 4)%nat then Return (int_from_bytes_big b)
  else Raise (StructError "unpack requires a buffer of 4 bytes").

(** ** The [ecdsa] collaborator

    [SigningKey.from_string(string, curve=SECP256k1)] accepts exactly the
    32-byte strings whose big-endian value is a secret exponent between 1
    and the group order.  The verifying key is the public point of that
    exponent; point arithmetic is outside this development, so the point is
    kept as the signing key it belongs to. *)
Module ecdsa.

Definition SECP256k1_order : Z :=
  0xFFFFFFFFFFFFFFFFFFFFFFFFFFFFFFFEBAAEDCE6AF48A03BBFD25E8CD0364141.
Definition SECP256k1_baselen : nat := 32.

Record SigningKey := mkSigningKey { secexp : Z }.
Inductive VerifyingKey := PublicPointOf (sk : SigningKey).

Definition from_string (s : bytes) : outcome SigningKey :=
  if (length s =? SECP256k1_baselen)%nat then
    let e := int_from_bytes_big s in
    if (1 <=? e) && (e <? SECP256k1_order) then Return (mkSigningKey e)
    else Raise MalformedPointError
  else Raise MalformedPointError.

Definition get_verifying_key (sk : SigningKey) : VerifyingKey := PublicPointOf sk.

End ecdsa.

(** ** The [HDW] instance

    An attribute that a method creates on first assignment ([seed],
    [master_private_key], ...) is [None] until then. *)
Record HDW : Type := mkHDW {
  strength : option Z;
  _depth : Z;
  _index : Z;
  _parent_fingerprint : bytes;
  seed : option bytes;
  master_private_key : option bytes;
  master_chain_code : option bytes;
  _mnemonic : option string;
  _key : option ecdsa.SigningKey;
  _verified_key : option ecdsa.VerifyingKey
}.

Definition set_strength (v : Z) (s : HDW) : HDW :=
  mkHDW (Some v) (_depth s) (_index s) (_parent_fingerprint s) (seed s)
        (master_private_key s) (master_chain_code s) (_mnemonic s) (_key s) (_verified_key s).
Definition set_depth (v : Z) (s : HDW) : HDW :=
  mkHDW (strength s) v (_index s) (_parent_fingerprint s) (seed s)
        (master_private_key s) (master_chain_code s) (_mnemonic s) (_key s) (_verified_key s).
Definition set_index (v : Z) (s : HDW) : HDW :=
  mkHDW (strength s) (_depth s) v (_parent_fingerprint s) (seed s)
        (master_private_key s) (master_chain_code s) (_mnemonic s) (_key s) (_verified_key s).
Definition set_parent_fingerprint (v : bytes) (s : HDW) : HDW :=
  mkHDW (strength s) (_depth s) (_index s) v (seed s)
        (master_private_key s) (master_chain_code s) (_mnemonic s) (_key s) (_verified_key s).
Definition set_seed (v : bytes) (s : HDW) : HDW :=
  mkHDW (strength s) (_depth s) (_index s) (_parent_fingerprint s) (Some v)
        (master_private_key s) (master_chain_code s) (_mnemonic s) (_key s) (_verified_key s).
Definition set_master_private_key (v : bytes) (s : HDW) : HDW :=
  mkHDW (strength s) (_depth s) (_index s) (_parent_fingerprint s) (seed s)
        (Some v) (master_chain_code s) (_mnemonic s) (_key s) (_verified_key s).
Definition set_master_chain_code (v : bytes) (s : HDW) : HDW :=
  mkHDW (strength s) (_depth s) (_index s) (_parent_fingerprint s) (seed s)
        (master_private_key s) (Some v) (_mnemonic s) (_key s) (_verified_key s).
Definition set_mnemonic (v : string) (s : HDW) : HDW :=
  mkHDW (strength s) (_depth s) (_index s) (_parent_fingerprint s) (seed s)
        (master_private_key s) (master_chain_code s) (Some v) (_key s) (_verified_key s).
Definition set_key (v : ecdsa.SigningKey) (s : HDW) : HDW :=
  mkHDW (strength s) (_depth s) (_index s) (_parent_fingerprint s) (seed s)
        (master_private_key s) (master_chain_code s) (_mnemonic s) (Some v) (_verified_key s).
Definition set_verified_key (v : ecdsa.VerifyingKey) (s : HDW) : HDW :=
  mkHDW (strength s) (_depth s) (_index s) (_parent_fingerprint s) (seed s)
        (master_private_key s) (master_chain_code s) (_mnemonic s) (_key s) (Some v).

(** The derivation state of the instance: depth, index, parent fingerprint. *)
Definition core_fields (s : HDW) : Z * Z * bytes :=
  (_depth s, _index s, _parent_fingerprint s).

(** ** Methods: state and exceptions *)
Definition M (A : Type) : Type := HDW -> outcome A * HDW.

Definition ret {A} (a : A) : M A := fun s => (Return a, s).
Definition raise {A} (e : exn) : M A := fun s => (Raise e, s).
Definition bind {A B} (m : M A) (k : A -> M B) : M B :=
  fun s => match m s with
           | (Return a, s') => k a s'
           | (Raise e, s') => (Raise e, s')
           end.
Definition assign (f : HDW -> HDW) : M unit := fun s => (Return tt, f s).
Definition lift {A} (o : outcome A) : M A := fun s => (o, s).

Declare Scope hdw_scope.
Delimit Scope hdw_scope with hdw.
Notation "x <- m ;; k" := (bind m (fun x => k))
  (at level 61, m at next level, right associativity) : hdw_scope.
Notation "m ;;; k" := (bind m (fun _ => k))
  (at level 61, right associativity) : hdw_scope.

(** [str.split(sep)] for a one-character separator: one more piece than
    there are separators, empty pieces included. *)
Fixpoint split_on (sep : ascii) (s : string) : list string :=
  match s with
  | EmptyString => [EmptyString]
  | String c rest =>
      if Ascii.eqb c sep then EmptyString :: split_on sep rest
      else match split_on sep rest with
           | w :: ws => String c w :: ws
           | [] => [String c EmptyString]
           end
  end.

(** *** [from_seed] *)
Definition from_seed (seed_bytes : bytes) : bytes * bytes :=
  let key := b_ "Bitcoin seed" in
  let h := HMAC.hmac_sha512 key seed_bytes in
  let master_private_key := slice_to 32 h in
  let master_chain_code := slice_from 32 h in
  (master_private_key, master_chain_code).

(** *** [to_seed] *)
Definition to_seed (mnemonic : string) (passphrase : string) : bytes :=
  let passphrase := ("mnemonic" ++ passphrase)%string in
  let mnemonic_bytes := list_byte_of_string mnemonic in
  let passphrase_bytes := list_byte_of_string passphrase in
  let stretched :=
    PBKDF2.pbkdf2_hmac_sha512 mnemonic_bytes passphrase_bytes 2048 None in
  slice_to 64 stretched.

(** *** [__init__] *)
Definition fresh : HDW :=
  mkHDW None 0 0 [x00; x00; x00; x00] None None None None None None.

Definition truthy (s : option string) : bool :=
  match s with
  | Some (String _ _) => true
  | _ => false
  end.

Definition __init__ (seed : option string) : outcome HDW :=
  let self := fresh in
  match seed with
  | Some hexseed =>
      if truthy seed then
        match binascii.unhexlify hexseed with
        | Return seed_bytes =>
            let self := set_seed seed_bytes self in
            let '(k, c) := from_seed seed_bytes in
            Return (set_master_chain_code c (set_master_private_key k self))
        | Raise e => Raise e
        end
      else Return self
  | None => Return self
  end.

(** *** [_deserialize_xprivate_key]

    The argument is a [bytes] object.  [b2a_hex] takes nothing else: on a
    [str] it raises [TypeError] at once, before the length is looked at. *)
Definition parts : Type := bytes * bytes * bytes * bytes * bytes * bytes.

Definition part0 (p : parts) : bytes := let '(a, _, _, _, _, _) := p in a.
Definition part1 (p : parts) : bytes := let '(_, a, _, _, _, _) := p in a.
Definition part2 (p : parts) : bytes := let '(_, _, a, _, _, _) := p in a.
Definition part3 (p : parts) : bytes := let '(_, _, _, a, _, _) := p in a.
Definition part4 (p : parts) : bytes := let '(_, _, _, _, a, _) := p in a.
Definition part5 (p : parts) : bytes := let '(_, _, _, _, _, a) := p in a.

Definition decode_xprivate_key (xprivate_key : bytes) (encoded : bool) : bytes :=
  if encoded then binascii.b2a_hex xprivate_key else xprivate_key.

Definition _deserialize_xprivate_key (xprivate_key : bytes) (encoded : bool)
  : outcome parts :=
  let decoded_xprivate_key := decode_xprivate_key xprivate_key encoded in
  if negb (length decoded_xprivate_key =? 156)%nat then
    Raise (ValueError "Invalid xprivate key.")
  else
    Return (slice_to 4 decoded_xprivate_key,
            slice 4 5 decoded_xprivate_key,
            slice 5 9 decoded_xprivate_key,
            slice 9 13 decoded_xprivate_key,
            slice 13 45 decoded_xprivate_key,
            slice_from 46 decoded_xprivate_key).

(** *** [from_xprivate_key] *)
Definition xprv_version : bytes := [x04; x88; xad; xe4].

Local Open Scope hdw_scope.

Definition from_xprivate_key (xprivate_key : bytes) (strict : bool) : M unit :=
  _parts <- lift (_deserialize_xprivate_key xprivate_key true) ;;
  if strict && negb (bytes_eqb (part0 _parts) xprv_version) then
    raise (ValueError "Invalid root xprivate key.")
  else
    (* the right-hand tuple is built before any of the three targets is set *)
    idx <- lift (struct_unpack_BE_L (part3 _parts)) ;;
    assign (set_depth (int_from_bytes_big (part1 _parts))) ;;;
    assign (set_parent_fingerprint (part2 _parts)) ;;;
    assign (set_index idx) ;;;
    let mpk := slice_to 32 (part4 _parts) in
    assign (set_master_private_key mpk) ;;;
    assign (set_master_chain_code (slice_from 32 (part4 _parts))) ;;;
    sk <- lift (ecdsa.from_string mpk) ;;
    assign (set_key sk) ;;;
    assign (set_verified_key (ecdsa.get_verifying_key sk)) ;;;
    ret tt.

(** ** The mnemonic path

    [unicodedata.normalize("NFKD", s)] depends on the Unicode character
    database; it is a parameter of the methods that call it. *)
Section Mnemonic.

Variable nfkd : string -> string.

(** *** [get_mnemonic_strength] *)
Definition get_mnemonic_strength (mnemonic : string) : outcome Z :=
  let words := Z.of_nat (length (split_on " " (nfkd mnemonic))) in
  if words =? 12 then Return 128
  else if words =? 15 then Return 160
  else if words =? 18 then Return 192
  else if words =? 21 then Return 224
  else if words =? 24 then Return 256
  else Raise (ValueError "Unsupported number of words in mnemonic.").

(** *** [from_mnemonic] *)
Definition from_mnemonic (mnemonic : string) (passphrase : string) : M unit :=
  let normalized := nfkd mnemonic in
  assign (set_mnemonic normalized) ;;;
  st <- lift (get_mnemonic_strength normalized) ;;
  assign (set_strength st) ;;;
  let seed := to_seed normalized passphrase in
  let '(k, c) := from_seed seed in
  assign (set_master_private_key k) ;;;
  assign (set_master_chain_code c) ;;;
  ret tt.

(** *** Calls on an instance

    Every method of [HDW] that can be called on an existing instance,
    with its arguments; [run] performs the call. *)
Inductive call : Type :=
| Call_from_seed (seed_bytes : bytes)
| Call_get_mnemonic_strength (mnemonic : string)
| Call_from_mnemonic (mnemonic passphrase : string)
| Call_to_seed (mnemonic passphrase : string)
| Call_deserialize_xprivate_key (xprivate_key : bytes) (encoded : bool)
| Call_from_xprivate_key (xprivate_key : bytes) (strict : bool).

Definition run (c : call) : M unit :=
  match c with
  | Call_from_seed sb => _ <- ret (from_seed sb) ;; ret tt
  | Call_get_mnemonic_strength m => _ <- lift (get_mnemonic_strength m) ;; ret tt
  | Call_from_mnemonic m p => from_mnemonic m p
  | Call_to_seed m p => _ <- ret (to_seed m p) ;; ret tt
  | Call_deserialize_xprivate_key k e => _ <- lift (_deserialize_xprivate_key k e) ;; ret tt
  | Call_from_xprivate_key k strict => from_xprivate_key k strict
  end.

End Mnemonic.

(** ** Test data *)

Definition of_hex (s : string) : bytes :=
  match binascii.unhexlify s with
  | Return b => b
  | Raise _ => []
  end.

(** The master key of the first BIP32 test vector, as the 78 bytes under
    its Base58Check text [xprv9s21ZrQH143K3QTDL4LXw2F7HEK3wJUD2nW2nRk4stbPy6cq3jPPqjiChkVvvNKmPGJxWUtg6LnF5kejMRNNU3TGtRBeJgk33yuGBxrMPHi]. *)
Definition xprv_root_vector : bytes :=
  of_hex ("0488ade4" ++ "00" ++ "00000000" ++ "00000000"
          ++ "873dff81c02f525623fd1fe5167eac3a55a049de3d314bb42ee227ffed37d508"
          ++ "00" ++ "e8f32e723decf4051aefac8e2c93c9c5b214313817cdb01a1494b917c8436b35")%string.

(** The fields at the documented byte offsets, doubled for the hexadecimal
    text: version 0-3, depth 4, parent fingerprint 5-8, child index 9-12,
    key payload 13-44, chain code 46-77, byte 45 in neither. *)
Definition doubled_offset_fields (hex : bytes) : parts :=
  (slice 0 8 hex, slice 8 10 hex, slice 10 18 hex, slice 18 26 hex,
   slice 26 90 hex, slice 92 156 hex).

(** The same six ranges read as positions in the hexadecimal text itself,
    the last one ending at 77. *)
Definition literal_offset_fields (hex : bytes) : parts :=
  (slice 0 4 hex, slice 4 5 hex, slice 5 9 hex, slice 9 13 hex,
   slice 13 45 hex, slice 46 78 hex).

(** The declared layout of an extended private key: version, depth, parent
    fingerprint, child index (big-endian), a zero byte and the private key,
    chain code. *)
Definition serialize_declared_layout
    (version : bytes) (depth : Z) (fingerprint : bytes) (index : Z)
    (private_key chain_code : bytes) : bytes :=
  version ++ int_to_bytes_big 1 depth ++ fingerprint ++ int_to_bytes_big 4 index
  ++ (x00 :: private_key) ++ chain_code.

Definition sample_private_key : bytes :=
  of_hex "e8f32e723decf4051aefac8e2c93c9c5b214313817cdb01a1494b917c8436b35".
Definition sample_chain_code : bytes :=
  of_hex "873dff81c02f525623fd1fe5167eac3a55a049de3d314bb42ee227ffed37d508".
Definition sample_fingerprint : bytes := of_hex "3442193e".

Definition sample_child_key : bytes :=
  serialize_declared_layout xprv_version 1 sample_fingerprint 2
                            sample_private_key sample_chain_code.

(** A twelve-word mnemonic; NFKD leaves ASCII text as it is. *)
Definition abandon_about : string :=
  "abandon abandon abandon abandon abandon abandon abandon abandon abandon abandon abandon about".

Definition is_hexdigit (c : byte) : bool :=
  let n := byte_to_Z c in
  ((48 <=? n) && (n <=? 57)) || ((97 <=? n) && (n <=? 102)).

Fixpoint count_char (c : ascii) (s : string) : nat :=
  match s with
  | EmptyString => 0
  | String a rest => (if Ascii.eqb a c then 1 else 0) + count_char c rest
  end.

(** The instance after [from_xprivate_key] has run to its end on the
    hexadecimal text [hex] of its argument. *)
Definition imported (hex : bytes) (st : HDW) : HDW :=
  let mpk := slice_to 32 (slice 13 45 hex) in
  let sk := ecdsa.mkSigningKey (int_from_bytes_big mpk) in
  set_verified_key (ecdsa.get_verifying_key sk)
    (set_key sk
      (set_master_chain_code (slice_from 32 (slice 13 45 hex))
        (set_master_private_key mpk
          (set_index (int_from_bytes_big (slice 9 13 hex))
            (set_parent_fingerprint (slice 5 9 hex)
              (set_depth (int_from_bytes_big (slice 4 5 hex)) st)))))).

(** The hexadecimal text of a byte string as a [str], as [b.hex()] gives
    it. *)
Definition hex_text (b : bytes) : string :=
  string_of_list_byte (binascii.b2a_hex b).

Definition is_hex_char (c : byte) : bool :=
  match binascii.digit_value c with
  | Some _ => true
  | None => false
  end.

(** ** The [HDWallet] wrapper

    [HDWallet] owns one object of the external [hdwallet] package and only
    forwards to it.  The package is an interface here: the type of its
    objects, the type of its exceptions, and one operation for each method
    the wrapper calls.  An operation works in place: it gives the object
    after the call and the exception it raised, if any. *)

Inductive symbol : Type := BTC | BTCTEST.

Class Collaborator : Type := {
  ext : Type;
  ext_error : Type;
  ext_HDWallet : symbol -> ext + ext_error;
  ext_from_mnemonic : string -> ext -> ext * option ext_error;
  ext_from_xprivate_key : string -> ext -> ext * option ext_error;
  ext_from_path : string -> ext -> ext * option ext_error;
  ext_clean_derivation : ext -> ext * option ext_error
}.

Module Wrapper.
Section WithCollaborator.

Context {L : Collaborator}.

(** What a call on the wrapper can raise: its own assertion, or whatever
    the package raised. *)
Inductive failure : Type :=
| AssertionError (msg : string)
| Propagated (e : ext_error).

Record HDWallet : Type := mkHDWallet { hdw : ext }.

(** One forwarded call inside the constructor: the object is passed on
    when the call returns, and the exception ends the construction. *)
Definition forward (op : ext -> ext * option ext_error) (h : ext) : ext + failure :=
  match op h with
  | (h', None) => inl h'
  | (_, Some e) => inr (Propagated e)
  end.

Definition and_then (r : ext + failure) (k : ext -> ext + failure) : ext + failure :=
  match r with
  | inl h => k h
  | inr e => inr e
  end.

(** [HDWallet.__init__]; [is_mainnet] is the answer of
    [bitcoinutils.setup.is_mainnet()] at the time of the call. *)
Definition __init__ (is_mainnet : bool)
    (xprivate_key path mnemonic : option string) : HDWallet + failure :=
  let symbol := if is_mainnet then BTC else BTCTEST in
  match ext_HDWallet symbol with
  | inr e => inr (Propagated e)
  | inl h0 =>
      let r1 :=
        match mnemonic with
        | Some m => if truthy mnemonic then forward (ext_from_mnemonic m) h0 else inl h0
        | None => inl h0
        end in
      let r2 :=
        and_then r1 (fun h1 =>
          match xprivate_key, path with
          | Some k, Some p =>
              if truthy xprivate_key && truthy path then
                and_then (forward (ext_from_xprivate_key k) h1)
                         (forward (ext_from_path p))
              else inl h1
          | _, _ => inl h1
          end) in
      match r2 with
      | inl h => inl (mkHDWallet h)
      | inr e => inr e
      end
  end.

(** The class method [HDWallet.from_mnemonic]. *)
Definition from_mnemonic (is_mainnet : bool) (mnemonic : string) : HDWallet + failure :=
  __init__ is_mainnet None None (Some mnemonic).

(** The class method [HDWallet.from_xprivate_key]. *)
Definition from_xprivate_key (is_mainnet : bool)
    (xprivate_key : string) (path : option string) : HDWallet + failure :=
  match path with
  | None => inr (AssertionError "Path must be provided with xprivate key")
  | Some _ => __init__ is_mainnet (Some xprivate_key) path None
  end.

(** The method [from_path]: the wallet after the call and what was raised. *)
Definition from_path (path : string) (self : HDWallet) : HDWallet * option failure :=
  match ext_clean_derivation (hdw self) with
  | (h1, Some e) => (mkHDWallet h1, Some (Propagated e))
  | (h1, None) =>
      match ext_from_path path h1 with
      | (h2, Some e) => (mkHDWallet h2, Some (Propagated e))
      | (h2, None) => (mkHDWallet h2, None)
      end
  end.

End WithCollaborator.
End Wrapper.

(** A package that never raises and records what it was given: the network,
    the mnemonic, the key, and the paths applied since the last reset.  It
    serves as a concrete collaborator in the examples. *)
Record recorded : Type := mkRecorded {
  rec_symbol : symbol;
  rec_mnemonic : option string;
  rec_xprivate_key : option string;
  rec_paths : list string
}.

Definition recording : Collaborator := {|
  ext := recorded;
  ext_error := Empty_set;
  ext_HDWallet := fun sy => inl (mkRecorded sy None None []);
  ext_from_mnemonic := fun m h =>
    (mkRecorded (rec_symbol h) (Some m) (rec_xprivate_key h) (rec_paths h), None);
  ext_from_xprivate_key := fun k h =>
    (mkRecorded (rec_symbol h) (rec_mnemonic h) (Some k) (rec_paths h), None);
  ext_from_path := fun p h =>
    (mkRecorded (rec_symbol h) (rec_mnemonic h) (rec_xprivate_key h) (rec_paths h ++ [p]), None);
  ext_clean_derivation := fun h =>
    (mkRecorded (rec_symbol h) (rec_mnemonic h) (rec_xprivate_key h) [], None)
|}.

(** * Properties *)

(** ** Bytes and integers *)

Lemma byte_to_Z_range (b : byte) : 0 <= byte_to_Z b < 256.
Proof.
  unfold byte_to_Z. pose proof (Byte.to_N_bounded b). lia.
Qed.

Lemma length_int_to_bytes_big (len : nat) (n : Z) :
  length (int_to_bytes_big len n) = len.
Proof.
  revert n. induction len as [|k IH]; intro n; simpl.
  - reflexivity.
  - rewrite length_app, IH. simpl. lia.
Qed.

Lemma int_from_bytes_big_acc (l : bytes) (acc : Z) :
  fold_left (fun a x => a * 256 + byte_to_Z x) l acc
  = acc * 256 ^ Z.of_nat (length l) + int_from_bytes_big l.
Proof.
  unfold int_from_bytes_big. revert acc.
  induction l as [|x l IH]; intro acc.
  - simpl. lia.
  - cbn [fold_left length]. rewrite IH, (IH (0 * 256 + byte_to_Z x)).
    rewrite Nat2Z.inj_succ, Z.pow_succ_r by lia. ring.
Qed.

Lemma int_from_bytes_big_cons (x : byte) (l : bytes) :
  int_from_bytes_big (x :: l)
  = byte_to_Z x * 256 ^ Z.of_nat (length l) + int_from_bytes_big l.
Proof.
  unfold int_from_bytes_big at 1. cbn [fold_left].
  rewrite int_from_bytes_big_acc. ring.
Qed.

Lemma int_from_bytes_big_range (l : bytes) :
  0 <= int_from_bytes_big l < 256 ^ Z.of_nat (length l).
Proof.
  induction l as [|x l IH].
  - cbn. lia.
  - rewrite int_from_bytes_big_cons. pose proof (byte_to_Z_range x).
    cbn [length]. rewrite Nat2Z.inj_succ, Z.pow_succ_r by lia. nia.
Qed.

Lemma length_xor_bytes (a b : bytes) :
  length (xor_bytes a b) = Nat.min (length a) (length b).
Proof.
  revert b. induction a as [|x a IH]; intros [|y b]; simpl; auto.
Qed.

Lemma bytes_eqb_length (a b : bytes) :
  bytes_eqb a b = true -> length a = length b.
Proof.
  revert b. induction a as [|x a IH]; intros [|y b]; simpl; try discriminate; auto.
  intro H. apply andb_true_iff in H. f_equal. apply IH, H.
Qed.

Lemma firstn_Forall {A} (P : A -> Prop) (n : nat) (l : list A) :
  Forall P l -> Forall P (firstn n l).
Proof.
  intro H. revert n. induction H; intros [|n]; simpl; constructor; auto.
Qed.

Lemma skipn_Forall {A} (P : A -> Prop) (n : nat) (l : list A) :
  Forall P l -> Forall P (skipn n l).
Proof.
  intro H. revert n. induction H; intros [|n]; simpl; auto.
Qed.

Lemma length_slice {A} (lo hi : nat) (l : list A) :
  (hi <= length l)%nat -> length (slice lo hi l) = (hi - lo)%nat.
Proof.
  intro H. unfold slice. rewrite length_firstn, length_skipn. lia.
Qed.

Lemma list_byte_of_string_app (a b : string) :
  list_byte_of_string (a ++ b) = list_byte_of_string a ++ list_byte_of_string b.
Proof.
  unfold list_byte_of_string.
  induction a as [|c a IH]; cbn [String.append list_ascii_of_string map app].
  - reflexivity.
  - f_equal. exact IH.
Qed.

(** ** The hash model against published vectors *)

Example sha512_abc :
  SHA512.digest (b_ "abc") =
  of_hex "ddaf35a193617abacc417349ae20413112e6fa4e89a97ea20a9eeee64b55d39a2192992a274fc1a836ba3c23a3feebbd454d4423643ce80e2a9ac94fa54ca49f".
Proof. vm_compute. reflexivity. Qed.

Example sha512_empty :
  SHA512.digest [] =
  of_hex "cf83e1357eefb8bdf1542850d66d8007d620e4050b5715dc83f4a921d36ce9ce47d0d13c5d85f2b0ff8318d2877eec2f63b931bd47417a81a538327af927da3e".
Proof. vm_compute. reflexivity. Qed.

(** 111 bytes fill one block exactly with the padding; 112 need a second. *)
Example sha512_padding_boundary :
  SHA512.digest (repeat x61 111) =
  of_hex "fa9121c7b32b9e01733d034cfc78cbf67f926c7ed83e82200ef86818196921760b4beff48404df811b953828274461673c68d04e297b0eb7b2b4d60fc6b566a2" /\
  SHA512.digest (repeat x61 112) =
  of_hex "c01d080efd492776a1c43bd23dd99d0a2e626d481e16782e75d54c2503b5dc32bd05f0f1ba33e568b88fd2d970929b719ecbb152f58f130a407c8830604b70ca".
Proof. split; vm_compute; reflexivity. Qed.

(** RFC 4231, test case 2. *)
Example hmac_sha512_rfc4231_2 :
  HMAC.hmac_sha512 (b_ "Jefe") (b_ "what do ya want for nothing?") =
  of_hex "164b7a7bfcf819e2e395fbe73b56e0a387bd64222e831fd610270cd7ea2505549758bf75c05a994a6d034f65f8f0e6fdcaeab1a34d4a6b4b636e070a38bce737".
Proof. vm_compute. reflexivity. Qed.

Example pbkdf2_two_iterations :
  PBKDF2.pbkdf2_hmac_sha512 (b_ "password") (b_ "salt") 2 None =
  of_hex "e1d9c16aa681708a45f5c7c4e215ceb66e011a2e9f0040713f18aefdb866d53cf76cab2868a39b9f7840edce4fef5a82be67335c77a6068e04112754f27ccf4e".
Proof. vm_compute. reflexivity. Qed.

(** ** Digest sizes *)

Lemma sha512_digest_length (msg : bytes) : length (SHA512.digest msg) = 64%nat.
Proof.
  unfold SHA512.digest, SHA512.output.
  rewrite !length_app, !length_int_to_bytes_big. reflexivity.
Qed.

Lemma hmac_sha512_length (key msg : bytes) :
  length (HMAC.hmac_sha512 key msg) = 64%nat.
Proof.
  unfold HMAC.hmac_sha512. apply sha512_digest_length.
Qed.

Section PBKDF2_length.
Variable prf : bytes -> bytes -> bytes.
Variable hLen : nat.
Hypothesis prf_length : forall p m, length (prf p m) = hLen.

Lemma pbkdf2_F_length (password salt : bytes) (c i : Z) :
  length (PBKDF2.F prf password salt c i) = hLen.
Proof.
  unfold PBKDF2.F.
  apply (N.iter_invariant (Z.to_N (c - 1)) _ (PBKDF2.step prf password)
           (fun ut => length (snd ut) = hLen)).
  - intros [u t] Ht. unfold PBKDF2.step. cbn [fst snd] in *.
    rewrite length_xor_bytes, Ht, prf_length. lia.
  - cbn [snd]. apply prf_length.
Qed.

Lemma pbkdf2_T_length (password salt : bytes) (c : Z) (count : nat) (i : Z) :
  length (PBKDF2.T prf password salt c count i) = (count * hLen)%nat.
Proof.
  revert i. induction count as [|k IH]; intro i; cbn [PBKDF2.T].
  - reflexivity.
  - rewrite length_app, pbkdf2_F_length, IH. lia.
Qed.
End PBKDF2_length.

Lemma pbkdf2_hmac_sha512_default_length (password salt : bytes) (iterations : Z) :
  length (PBKDF2.pbkdf2_hmac_sha512 password salt iterations None) = 64%nat.
Proof.
  unfold PBKDF2.pbkdf2_hmac_sha512, PBKDF2.pbkdf2.
  rewrite length_firstn, (pbkdf2_T_length _ 64 hmac_sha512_length).
  reflexivity.
Qed.

(** ** Hexadecimal text *)

Lemma b2a_hex_length (data : bytes) :
  length (binascii.b2a_hex data) = (2 * length data)%nat.
Proof.
  unfold binascii.b2a_hex.
  induction data as [|x data IH]; cbn [flat_map length app].
  - reflexivity.
  - rewrite IH. lia.
Qed.

Lemma hexdigit_pair (x : byte) :
  is_hexdigit (binascii.hexdigit (byte_to_Z x / 16)) = true /\
  is_hexdigit (binascii.hexdigit (byte_to_Z x mod 16)) = true.
Proof.
  destruct x; split; vm_compute; reflexivity.
Qed.

Lemma b2a_hex_digits (data : bytes) :
  Forall (fun c => is_hexdigit c = true) (binascii.b2a_hex data).
Proof.
  unfold binascii.b2a_hex.
  induction data as [|x data IH]; cbn [flat_map app].
  - constructor.
  - destruct (hexdigit_pair x) as [Hhi Hlo]. repeat constructor; assumption.
Qed.

Lemma hexdigit_bounds (c : byte) :
  is_hexdigit c = true -> 48 <= byte_to_Z c <= 102.
Proof.
  unfold is_hexdigit. cbv zeta. intro H.
  apply orb_true_iff in H. destruct H as [H|H];
    apply andb_true_iff in H; destruct H as [H1 H2];
    apply Z.leb_le in H1; apply Z.leb_le in H2; lia.
Qed.

(** No hexadecimal text starts with the four version bytes of a main-net
    private key: its first character would be the byte [0x04]. *)
Lemma hex_text_is_not_xprv_version (hex : bytes) :
  Forall (fun c => is_hexdigit c = true) hex ->
  bytes_eqb (slice_to 4 hex) xprv_version = false.
Proof.
  intro H. unfold slice_to, xprv_version.
  destruct H as [|c hex Hc _]; [reflexivity|].
  cbn [firstn bytes_eqb].
  apply hexdigit_bounds in Hc.
  replace (Byte.eqb c x04) with false; [reflexivity|].
  symmetry. apply not_true_is_false. intro E.
  apply Byte.byte_dec_bl in E. subst c. vm_compute in Hc. destruct Hc as [Hc _].
  apply Hc. reflexivity.
Qed.

(** Thirty-two characters of hexadecimal text, read as a big-endian number,
    always form a valid secret exponent of secp256k1. *)
Lemma hex_text_is_a_secret_exponent (s : bytes) :
  Forall (fun c => is_hexdigit c = true) s ->
  length s = 32%nat ->
  ecdsa.from_string s = Return (ecdsa.mkSigningKey (int_from_bytes_big s)).
Proof.
  intros Hs Hlen. unfold ecdsa.from_string, ecdsa.SECP256k1_baselen.
  rewrite Hlen. cbn [Nat.eqb].
  destruct Hs as [|c l Hc _]; [discriminate Hlen|].
  cbn zeta.
  assert (Hl : length l = 31%nat) by (cbn [length] in Hlen; lia).
  pose proof (int_from_bytes_big_range l) as Hr.
  pose proof (hexdigit_bounds c Hc) as Hb.
  rewrite int_from_bytes_big_cons in *. rewrite Hl in *.
  assert (HP : 256 ^ Z.of_nat 31 = 0x100000000000000000000000000000000000000000000000000000000000000)
    by reflexivity.
  rewrite HP in *.
  replace (1 <=? _) with true by (symmetry; apply Z.leb_le; lia).
  replace (_ <? ecdsa.SECP256k1_order) with true
    by (symmetry; apply Z.ltb_lt; unfold ecdsa.SECP256k1_order; lia).
  reflexivity.
Qed.

(** ** Deserialization, case by case *)

Lemma deserialize_wrong_length (xprivate_key : bytes) (encoded : bool) :
  length (decode_xprivate_key xprivate_key encoded) <> 156%nat ->
  _deserialize_xprivate_key xprivate_key encoded = Raise InvalidExtendedKeyLength.
Proof.
  intro H. unfold _deserialize_xprivate_key. cbv zeta.
  apply Nat.eqb_neq in H. rewrite H. reflexivity.
Qed.

Lemma deserialize_right_length (xprivate_key : bytes) (encoded : bool) :
  length (decode_xprivate_key xprivate_key encoded) = 156%nat ->
  _deserialize_xprivate_key xprivate_key encoded =
  let d := decode_xprivate_key xprivate_key encoded in
  Return (slice_to 4 d, slice 4 5 d, slice 5 9 d, slice 9 13 d, slice 13 45 d,
          slice_from 46 d).
Proof.
  intro H. unfold _deserialize_xprivate_key. cbv zeta.
  apply Nat.eqb_eq in H. rewrite H. reflexivity.
Qed.

Lemma from_xprivate_key_wrong_length (xprivate_key : bytes) (strict : bool) (st : HDW) :
  length (binascii.b2a_hex xprivate_key) <> 156%nat ->
  from_xprivate_key xprivate_key strict st = (Raise InvalidExtendedKeyLength, st).
Proof.
  intro H. unfold from_xprivate_key, bind, lift.
  rewrite (deserialize_wrong_length xprivate_key true H). reflexivity.
Qed.

Lemma from_xprivate_key_strict (xprivate_key : bytes) (st : HDW) :
  length (binascii.b2a_hex xprivate_key) = 156%nat ->
  from_xprivate_key xprivate_key true st = (Raise NotARootKey, st).
Proof.
  intro H. unfold from_xprivate_key, bind at 1, lift at 1.
  rewrite (deserialize_right_length xprivate_key true H).
  cbv zeta. cbn [part0 decode_xprivate_key andb].
  rewrite hex_text_is_not_xprv_version by apply b2a_hex_digits.
  reflexivity.
Qed.

Lemma from_xprivate_key_lenient (xprivate_key : bytes) (st : HDW) :
  length (binascii.b2a_hex xprivate_key) = 156%nat ->
  from_xprivate_key xprivate_key false st =
  (Return tt, imported (binascii.b2a_hex xprivate_key) st).
Proof.
  intro H. unfold from_xprivate_key, bind at 1, lift at 1.
  rewrite (deserialize_right_length xprivate_key true H).
  cbv zeta. cbn [part0 part1 part2 part3 part4 decode_xprivate_key andb].
  set (hex := binascii.b2a_hex xprivate_key) in *.
  assert (Hidx : struct_unpack_BE_L (slice 9 13 hex)
                 = Return (int_from_bytes_big (slice 9 13 hex))).
  { unfold struct_unpack_BE_L. rewrite length_slice by lia. reflexivity. }
  assert (Hsk : ecdsa.from_string (slice_to 32 (slice 13 45 hex))
                = Return (ecdsa.mkSigningKey
                            (int_from_bytes_big (slice_to 32 (slice 13 45 hex))))).
  { apply hex_text_is_a_secret_exponent.
    - unfold slice_to, slice. apply firstn_Forall, firstn_Forall, skipn_Forall.
      apply b2a_hex_digits.
    - unfold slice_to. rewrite length_firstn, length_slice by lia. reflexivity. }
  unfold bind, lift, assign, ret. rewrite Hidx, Hsk. reflexivity.
Qed.

(** ** Mnemonic words *)

Lemma split_on_length (sep : ascii) (s : string) :
  length (split_on sep s) = S (count_char sep s).
Proof.
  induction s as [|c s IH]; cbn [split_on count_char].
  - reflexivity.
  - destruct (Ascii.eqb c sep); cbn [length].
    + rewrite IH. reflexivity.
    + destruct (split_on sep s) as [|w ws]; [discriminate IH|].
      cbn [length] in *. lia.
Qed.

Lemma from_mnemonic_keeps_core_fields
    (nfkd : string -> string) (mnemonic passphrase : string) (st : HDW) :
  core_fields (snd (from_mnemonic nfkd mnemonic passphrase st)) = core_fields st.
Proof.
  unfold from_mnemonic, bind, assign, lift, ret.
  destruct (get_mnemonic_strength nfkd (nfkd mnemonic)) as [n|e];
    [destruct (from_seed _) as [k c]|]; reflexivity.
Qed.

Lemma from_xprivate_key_failure (k : bytes) (strict : bool) (st st' : HDW) (e : exn) :
  from_xprivate_key k strict st = (Raise e, st') ->
  st' = st /\
  ((e = InvalidExtendedKeyLength /\ length (binascii.b2a_hex k) <> 156%nat) \/
   (e = NotARootKey /\ strict = true /\ length (binascii.b2a_hex k) = 156%nat)).
Proof.
  intro H.
  destruct (Nat.eq_dec (length (binascii.b2a_hex k)) 156) as [L|L].
  - destruct strict.
    + rewrite (from_xprivate_key_strict k st L) in H.
      injection H as He Hs. subst. auto.
    + rewrite (from_xprivate_key_lenient k st L) in H. discriminate H.
  - rewrite (from_xprivate_key_wrong_length k strict st L) in H.
    injection H as He Hs. subst. auto.
Qed.

(** ** The master key from a seed *)

Lemma from_seed_halves (seed_bytes : bytes) :
  length (fst (from_seed seed_bytes)) = 32%nat /\
  length (snd (from_seed seed_bytes)) = 32%nat.
Proof.
  unfold from_seed, slice_to, slice_from. cbv zeta. cbn [fst snd].
  rewrite length_firstn, length_skipn, hmac_sha512_length. split; reflexivity.
Qed.

(** C3. For every seed, [from_seed] returns the first 32 and the last 32
    bytes of HMAC-SHA512 keyed with the ASCII bytes of "Bitcoin seed" over
    the seed: both halves are 32 bytes long and together they are the whole
    digest.  The seed's length is never examined: the function is total. *)
Theorem from_seed_contract (seed_bytes : bytes) :
  let H := HMAC.hmac_sha512
             [x42; x69; x74; x63; x6f; x69; x6e; x20; x73; x65; x65; x64] seed_bytes in
  from_seed seed_bytes = (firstn 32 H, skipn (length H - 32) H) /\
  length (fst (from_seed seed_bytes)) = 32%nat /\
  length (snd (from_seed seed_bytes)) = 32%nat /\
  fst (from_seed seed_bytes) ++ snd (from_seed seed_bytes) = H.
Proof.
  cbv zeta. unfold from_seed, slice_to, slice_from. cbv zeta.
  change (b_ "Bitcoin seed")
    with [x42; x69; x74; x63; x6f; x69; x6e; x20; x73; x65; x65; x64].
  set (H := HMAC.hmac_sha512 _ seed_bytes).
  assert (HL : length H = 64%nat) by apply hmac_sha512_length.
  clearbody H. cbn [fst snd]. rewrite HL. split; [reflexivity|]. repeat split.
  - rewrite length_firstn, HL. reflexivity.
  - rewrite length_skipn, HL. reflexivity.
  - apply firstn_skipn.
Qed.

(** The master key of the first BIP32 test vector. *)
Example from_seed_bip32_vector1 :
  from_seed (of_hex "000102030405060708090a0b0c0d0e0f") =
  (of_hex "e8f32e723decf4051aefac8e2c93c9c5b214313817cdb01a1494b917c8436b35",
   of_hex "873dff81c02f525623fd1fe5167eac3a55a049de3d314bb42ee227ffed37d508").
Proof. vm_compute. reflexivity. Qed.

Example from_seed_empty_seed :
  length (fst (from_seed [])) = 32%nat /\ length (snd (from_seed [])) = 32%nat.
Proof. vm_compute. split; reflexivity. Qed.

(** ** The seed from a mnemonic *)

(** C4. For every mnemonic and passphrase, [to_seed] is the first 64 bytes
    of PBKDF2 over HMAC-SHA512 with the mnemonic's UTF-8 bytes as password,
    the UTF-8 bytes of "mnemonic" followed by those of the passphrase as
    salt, and 2048 iterations; the result is 64 bytes long. *)
Theorem to_seed_contract (mnemonic passphrase : string) :
  to_seed mnemonic passphrase =
    firstn 64 (PBKDF2.pbkdf2 HMAC.hmac_sha512 64
                 (list_byte_of_string mnemonic)
                 ([x6d; x6e; x65; x6d; x6f; x6e; x69; x63] ++ list_byte_of_string passphrase)
                 2048 64) /\
  length (to_seed mnemonic passphrase) = 64%nat.
Proof.
  unfold to_seed, slice_to. cbv zeta.
  rewrite list_byte_of_string_app.
  change (list_byte_of_string "mnemonic")
    with [x6d; x6e; x65; x6d; x6f; x6e; x69; x63].
  split.
  - reflexivity.
  - rewrite length_firstn, pbkdf2_hmac_sha512_default_length. reflexivity.
Qed.

(** With the default passphrase the salt is the bare prefix. *)
Lemma to_seed_default_passphrase (mnemonic : string) :
  to_seed mnemonic "" =
  PBKDF2.pbkdf2_hmac_sha512 (list_byte_of_string mnemonic)
    [x6d; x6e; x65; x6d; x6f; x6e; x69; x63] 2048 None.
Proof.
  unfold to_seed, slice_to. cbv zeta.
  rewrite list_byte_of_string_app.
  change (list_byte_of_string "mnemonic")
    with [x6d; x6e; x65; x6d; x6f; x6e; x69; x63].
  change (list_byte_of_string "") with (@nil byte). rewrite app_nil_r.
  apply firstn_all2. rewrite pbkdf2_hmac_sha512_default_length. lia.
Qed.

(** ** Mnemonic strength *)

(** C5. [get_mnemonic_strength] normalizes the mnemonic (NFKD), splits it
    at every single space, and maps the number of pieces, one more than the
    number of spaces, to 128, 160, 192, 224 or 256 for 12, 15, 18, 21 or 24
    words; any other count raises the unsupported-length error.  Calling it
    leaves the instance as it was. *)
Theorem get_mnemonic_strength_contract
    (nfkd : string -> string) (mnemonic : string) (st : HDW) :
  let words := length (split_on " " (nfkd mnemonic)) in
  words = S (count_char " " (nfkd mnemonic)) /\
  get_mnemonic_strength nfkd mnemonic =
    match words with
    | 12%nat => Return 128
    | 15%nat => Return 160
    | 18%nat => Return 192
    | 21%nat => Return 224
    | 24%nat => Return 256
    | _ => Raise UnsupportedMnemonicLength
    end /\
  snd (run nfkd (Call_get_mnemonic_strength mnemonic) st) = st.
Proof.
  cbv zeta. split; [apply split_on_length|]. split.
  - unfold get_mnemonic_strength. cbv zeta.
    generalize (length (split_on " " (nfkd mnemonic))). intro n.
    do 25 (destruct n as [|n]; [reflexivity|]).
    repeat match goal with
           | |- context [Z.eqb ?a ?b] => destruct (Z.eqb_spec a b); [lia|]
           end.
    reflexivity.
  - unfold run, bind, lift, ret.
    destruct (get_mnemonic_strength nfkd mnemonic); reflexivity.
Qed.

Example strength_of_twelve_words :
  get_mnemonic_strength (fun s => s) abandon_about = Return 128.
Proof. vm_compute. reflexivity. Qed.

Example strength_of_empty_mnemonic :
  get_mnemonic_strength (fun s => s) "" = Raise UnsupportedMnemonicLength.
Proof. vm_compute. reflexivity. Qed.

(** A doubled space makes an empty word, which counts. *)
Example strength_counts_empty_words :
  get_mnemonic_strength (fun s => s) "a b c d e f  h i j k l" = Return 128.
Proof. vm_compute. reflexivity. Qed.

(** ** The length gate of deserialization *)

(** C6. Whatever the mode, a key whose hexadecimal text is not exactly 156
    characters long is refused with the invalid-length error, and
    [from_xprivate_key] then stops with that error on an untouched instance;
    a text of exactly 156 characters passes the gate and the six parts are
    returned. *)
Theorem deserialize_length_gate (xprivate_key : bytes) (encoded : bool) :
  (length (decode_xprivate_key xprivate_key encoded) <> 156%nat ->
     _deserialize_xprivate_key xprivate_key encoded = Raise InvalidExtendedKeyLength /\
     (encoded = true -> forall strict st,
        from_xprivate_key xprivate_key strict st = (Raise InvalidExtendedKeyLength, st))) /\
  (length (decode_xprivate_key xprivate_key encoded) = 156%nat ->
     exists p, _deserialize_xprivate_key xprivate_key encoded = Return p).
Proof.
  split.
  - intro H. split.
    + apply deserialize_wrong_length, H.
    + intros -> strict st. apply from_xprivate_key_wrong_length, H.
  - intro H. rewrite (deserialize_right_length _ _ H). eexists. reflexivity.
Qed.

Lemma deserialize_length_gate_witness :
  (_deserialize_xprivate_key [] true = Raise InvalidExtendedKeyLength /\
   from_xprivate_key [] false fresh = (Raise InvalidExtendedKeyLength, fresh)) /\
  _deserialize_xprivate_key (repeat x30 155) false = Raise InvalidExtendedKeyLength /\
  _deserialize_xprivate_key (repeat x30 157) false = Raise InvalidExtendedKeyLength /\
  (exists p, _deserialize_xprivate_key xprv_root_vector true = Return p).
Proof.
  split; [|split; [|split]].
  - destruct (proj1 (deserialize_length_gate [] true)) as [H1 H2].
    + vm_compute. discriminate.
    + split; [exact H1|]. apply H2. reflexivity.
  - apply (proj1 (deserialize_length_gate (repeat x30 155) false)).
    vm_compute. discriminate.
  - apply (proj1 (deserialize_length_gate (repeat x30 157) false)).
    vm_compute. discriminate.
  - apply (proj2 (deserialize_length_gate xprv_root_vector true)).
    vm_compute. reflexivity.
Defined.

Example deserialize_one_byte_short :
  _deserialize_xprivate_key (firstn 77 xprv_root_vector) true
  = Raise (ValueError "Invalid xprivate key.").
Proof. vm_compute. reflexivity. Qed.

Example deserialize_one_byte_long :
  _deserialize_xprivate_key (xprv_root_vector ++ [x00]) true
  = Raise (ValueError "Invalid xprivate key.").
Proof. vm_compute. reflexivity. Qed.

(** ** Failure leaves the instance alone *)

(** C8. When [from_xprivate_key] raises, the instance is exactly as it was
    before the call, so its depth, index and parent fingerprint are
    unchanged; and the error is the invalid-length error or, under the
    strict flag, the not-a-root error. *)
Theorem from_xprivate_key_failure_is_atomic
    (xprivate_key : bytes) (strict : bool) (st st' : HDW) (e : exn)
    (H : from_xprivate_key xprivate_key strict st = (Raise e, st')) :
  st' = st /\
  core_fields st' = core_fields st /\
  (e = InvalidExtendedKeyLength \/ (e = NotARootKey /\ strict = true)).
Proof.
  destruct (from_xprivate_key_failure _ _ _ _ _ H) as [-> Hc].
  repeat split. destruct Hc as [[-> _]|[-> [-> _]]]; auto.
Qed.

Lemma from_xprivate_key_failure_is_atomic_witness :
  from_xprivate_key (firstn 77 xprv_root_vector) false fresh
    = (Raise InvalidExtendedKeyLength, fresh) /\
  (fresh = fresh /\
   core_fields fresh = core_fields fresh /\
   (InvalidExtendedKeyLength = InvalidExtendedKeyLength \/
    (InvalidExtendedKeyLength = NotARootKey /\ false = true))).
Proof.
  split.
  - vm_compute. reflexivity.
  - apply (from_xprivate_key_failure_is_atomic
             (firstn 77 xprv_root_vector) false fresh fresh InvalidExtendedKeyLength).
    vm_compute. reflexivity.
Defined.

(** ** Who writes the derivation state *)

(** C9. A new instance has depth 0, index 0 and a parent fingerprint of four
    zero bytes, with or without a seed; [from_mnemonic] leaves the three
    fields as they are, whether it returns or raises; and a call that
    changes any of them is a [from_xprivate_key] call that returned. *)
Theorem derivation_state_frame (nfkd : string -> string) :
  core_fields fresh = (0, 0, [x00; x00; x00; x00]) /\
  (forall seed self,
     __init__ seed = Return self -> core_fields self = (0, 0, [x00; x00; x00; x00])) /\
  (forall mnemonic passphrase st,
     core_fields (snd (from_mnemonic nfkd mnemonic passphrase st)) = core_fields st) /\
  (forall c st,
     core_fields (snd (run nfkd c st)) <> core_fields st ->
     exists k strict,
       c = Call_from_xprivate_key k strict /\ fst (run nfkd c st) = Return tt).
Proof.
  split; [reflexivity|]. split; [|split].
  - intros seed self. unfold __init__.
    destruct seed as [hexseed|]; [|intro H; injection H as <-; reflexivity].
    destruct (truthy (Some hexseed)); [|intro H; injection H as <-; reflexivity].
    destruct (binascii.unhexlify hexseed) as [sb|e]; [|discriminate].
    destruct (from_seed sb) as [k c]. intro H; injection H as <-. reflexivity.
  - apply from_mnemonic_keeps_core_fields.
  - intros c st Hneq. destruct c as [sb|m|m p|m p|k e|k strict].
    + exfalso. apply Hneq. reflexivity.
    + exfalso. apply Hneq. unfold run, bind, lift, ret.
      destruct (get_mnemonic_strength nfkd m); reflexivity.
    + exfalso. apply Hneq. apply from_mnemonic_keeps_core_fields.
    + exfalso. apply Hneq. reflexivity.
    + exfalso. apply Hneq. unfold run, bind, lift, ret.
      destruct (_deserialize_xprivate_key k e); reflexivity.
    + exists k, strict. split; [reflexivity|]. cbn [run] in *.
      destruct (from_xprivate_key k strict st) as [[[]|e] st'] eqn:E; [reflexivity|].
      exfalso. apply Hneq. cbn [snd].
      destruct (from_xprivate_key_failure _ _ _ _ _ E) as [-> _]. reflexivity.
Qed.

Lemma derivation_state_frame_witness :
  core_fields (snd (run (fun s => s) (Call_from_xprivate_key xprv_root_vector false) fresh))
    <> core_fields fresh /\
  exists k strict,
    Call_from_xprivate_key xprv_root_vector false = Call_from_xprivate_key k strict /\
    fst (run (fun s => s) (Call_from_xprivate_key xprv_root_vector false) fresh) = Return tt.
Proof.
  assert (Hneq : core_fields (snd (run (fun s => s)
                    (Call_from_xprivate_key xprv_root_vector false) fresh))
                 <> core_fields fresh).
  { vm_compute. discriminate. }
  split; [exact Hneq|].
  exact (proj2 (proj2 (proj2 (derivation_state_frame (fun s => s)))) _ _ Hneq).
Defined.

Example seeded_instance_is_a_root :
  match __init__ (Some "000102030405060708090a0b0c0d0e0f"%string) with
  | Return self =>
      core_fields self = (0, 0, [x00; x00; x00; x00]) /\
      master_private_key self =
        Some (of_hex "e8f32e723decf4051aefac8e2c93c9c5b214313817cdb01a1494b917c8436b35")
  | Raise _ => False
  end.
Proof. vm_compute. split; reflexivity. Qed.

Example odd_length_seed_is_refused :
  __init__ (Some "0001020"%string) = Raise (BinasciiError "Odd-length string").
Proof. vm_compute. reflexivity. Qed.

(** ** Where the parser departs from the documented layout *)

(** On every accepted key the six parts are cut from the hexadecimal text
    at the byte offsets themselves: the version part has four characters
    (two bytes of the key), never the eight of the documented layout. *)
Lemma deserialize_never_uses_doubled_offsets (xprivate_key : bytes) :
  length (binascii.b2a_hex xprivate_key) = 156%nat ->
  _deserialize_xprivate_key xprivate_key true
  <> Return (doubled_offset_fields (binascii.b2a_hex xprivate_key)).
Proof.
  intros H E. rewrite (deserialize_right_length xprivate_key true H) in E.
  cbv zeta in E. cbn [decode_xprivate_key] in E.
  unfold doubled_offset_fields in E.
  apply (f_equal (fun o => match o with
                           | Return p => length (part0 p)
                           | Raise _ => 0%nat
                           end)) in E.
  cbn [part0] in E. unfold slice_to in E.
  rewrite length_firstn, length_slice in E by lia. lia.
Qed.

(** C1. On the root key of the first BIP32 test vector the parser returns
    the characters 0-3, 4, 5-8, 9-12, 13-44 and 46-155 of the hexadecimal
    text, which are not the fields at the doubled offsets: the version part
    is "0488" instead of "0488ade4", the depth part is "a", and the last
    part runs over 110 characters, so it is not the range 46-77 of the text
    either. *)
Theorem deserialize_cuts_text_at_byte_offsets :
  _deserialize_xprivate_key xprv_root_vector true =
    Return (b_ "0488", b_ "a", b_ "de40", b_ "0000",
            b_ "0000000000000873dff81c02f525623f",
            b_ "1fe5167eac3a55a049de3d314bb42ee227ffed37d50800e8f32e723decf4051aefac8e2c93c9c5b214313817cdb01a1494b917c8436b35") /\
  doubled_offset_fields (binascii.b2a_hex xprv_root_vector) =
    (b_ "0488ade4", b_ "00", b_ "00000000", b_ "00000000",
     b_ "873dff81c02f525623fd1fe5167eac3a55a049de3d314bb42ee227ffed37d508",
     b_ "e8f32e723decf4051aefac8e2c93c9c5b214313817cdb01a1494b917c8436b35") /\
  _deserialize_xprivate_key xprv_root_vector true
  <> Return (doubled_offset_fields (binascii.b2a_hex xprv_root_vector)) /\
  _deserialize_xprivate_key xprv_root_vector true
  <> Return (literal_offset_fields (binascii.b2a_hex xprv_root_vector)).
Proof.
  split; [vm_compute; reflexivity|]. split; [vm_compute; reflexivity|].
  split; intro E; vm_compute in E; discriminate E.
Qed.

(** C2. A key serialized in the declared layout with depth 1, parent
    fingerprint 3442193e, child index 2, a private key and a chain code is
    imported without error, and the instance then holds depth 97, the
    fingerprint text "de40", index 825439284, a 32-character piece of
    hexadecimal text as private key and an empty chain code: none of the
    five encoded values. *)
Theorem from_xprivate_key_does_not_round_trip :
  let st' := snd (from_xprivate_key sample_child_key false fresh) in
  length sample_child_key = 78%nat /\
  fst (from_xprivate_key sample_child_key false fresh) = Return tt /\
  (_depth st' = 97 /\ _depth st' <> 1) /\
  (_parent_fingerprint st' = b_ "de40" /\ _parent_fingerprint st' <> sample_fingerprint) /\
  (_index st' = 825439284 /\ _index st' <> 2) /\
  (master_private_key st' = Some (b_ "2193e0000000200e8f32e723decf4051") /\
   master_private_key st' <> Some sample_private_key) /\
  (master_chain_code st' = Some [] /\ master_chain_code st' <> Some sample_chain_code).
Proof.
  cbv zeta. vm_compute.
  repeat split; try reflexivity; discriminate.
Qed.

(** ** The strict flag *)

(** Under the strict flag every key that passes the length gate is refused,
    whatever its version bytes; without the flag every such key is
    imported. *)
Lemma strict_mode_refuses_every_key (xprivate_key : bytes) (st : HDW) :
  length xprivate_key = 78%nat ->
  from_xprivate_key xprivate_key true st = (Raise NotARootKey, st).
Proof.
  intro H. apply from_xprivate_key_strict. rewrite b2a_hex_length, H. reflexivity.
Qed.

Lemma lenient_mode_accepts_every_key (xprivate_key : bytes) (st : HDW) :
  length xprivate_key = 78%nat ->
  fst (from_xprivate_key xprivate_key false st) = Return tt.
Proof.
  intro H. rewrite from_xprivate_key_lenient; [reflexivity|].
  rewrite b2a_hex_length, H. reflexivity.
Qed.

(** C7. The root key of the first BIP32 test vector starts with the version
    bytes 04 88 AD E4 of a main-net private root key, and with the strict
    flag [from_xprivate_key] still refuses it with the not-a-root error,
    leaving the instance untouched; without the flag the same key is
    imported. *)
Theorem strict_mode_refuses_the_root_marker :
  slice_to 4 xprv_root_vector = [x04; x88; xad; xe4] /\
  from_xprivate_key xprv_root_vector true fresh
    = (Raise (ValueError "Invalid root xprivate key."), fresh) /\
  fst (from_xprivate_key xprv_root_vector false fresh) = Return tt.
Proof.
  repeat split; vm_compute; reflexivity.
Qed.

(** ** The stored chain code *)

Lemma seeded_chain_code_length (hexseed : string) (self : HDW) :
  truthy (Some hexseed) = true ->
  __init__ (Some hexseed) = Return self ->
  exists c, master_chain_code self = Some c /\ length c = 32%nat.
Proof.
  intros Ht. unfold __init__. rewrite Ht.
  destruct (binascii.unhexlify hexseed) as [sb|e]; [|discriminate].
  pose proof (from_seed_halves sb) as [_ Hc].
  destruct (from_seed sb) as [k c]. intro H; injection H as <-.
  exists c. split; [reflexivity|exact Hc].
Qed.

Lemma from_mnemonic_chain_code_length
    (nfkd : string -> string) (mnemonic passphrase : string) (st st' : HDW) :
  from_mnemonic nfkd mnemonic passphrase st = (Return tt, st') ->
  exists c, master_chain_code st' = Some c /\ length c = 32%nat.
Proof.
  unfold from_mnemonic, bind, assign, lift, ret.
  destruct (get_mnemonic_strength nfkd (nfkd mnemonic)) as [n|e]; [|discriminate].
  pose proof (from_seed_halves (to_seed (nfkd mnemonic) passphrase)) as [_ Hc].
  destruct (from_seed _) as [k c]. intro H; injection H as <-.
  exists c. split; [reflexivity|exact Hc].
Qed.

(** Every import stores an empty chain code: the 32-character part is cut
    at 32 once more. *)
Lemma imported_chain_code_is_always_empty (xprivate_key : bytes) (st : HDW) :
  length xprivate_key = 78%nat ->
  master_chain_code (snd (from_xprivate_key xprivate_key false st)) = Some [].
Proof.
  intro H. rewrite from_xprivate_key_lenient by (rewrite b2a_hex_length, H; reflexivity).
  cbn [snd]. unfold imported. cbv zeta. cbn [set_verified_key set_key master_chain_code set_master_chain_code].
  f_equal. unfold slice_from. apply skipn_all2.
  rewrite length_slice by (rewrite b2a_hex_length, H; lia). lia.
Qed.

(** C10. Importing the root key of the first BIP32 test vector succeeds and
    leaves a stored chain code of length 0, not 32: it is neither the chain
    code 873dff81...d508 of that key nor the part the parser returns as
    chain code. *)
Theorem imported_chain_code_is_empty :
  let r := from_xprivate_key xprv_root_vector false fresh in
  fst r = Return tt /\
  master_chain_code (snd r) = Some [] /\
  (forall c, master_chain_code (snd r) = Some c -> length c = 0%nat /\ length c <> 32%nat) /\
  (exists p, _deserialize_xprivate_key xprv_root_vector true = Return p /\
             master_chain_code (snd r) <> Some (part5 p)).
Proof.
  cbv zeta. split; [vm_compute; reflexivity|].
  assert (E : master_chain_code (snd (from_xprivate_key xprv_root_vector false fresh)) = Some [])
    by (vm_compute; reflexivity).
  split; [exact E|]. split.
  - intros c Hc. rewrite E in Hc. injection Hc as <-. split; [reflexivity|discriminate].
  - rewrite E. eexists. split; [vm_compute; reflexivity|]. discriminate.
Qed.


(** * Further properties of the wallet code *)

(** ** Hexadecimal text, both ways *)

Lemma hexdigit_pair_value (x : byte) :
  binascii.digit_value (binascii.hexdigit (byte_to_Z x / 16)) = Some (byte_to_Z x / 16) /\
  binascii.digit_value (binascii.hexdigit (byte_to_Z x mod 16)) = Some (byte_to_Z x mod 16) /\
  byte_of_Z (16 * (byte_to_Z x / 16) + byte_to_Z x mod 16) = x.
Proof.
  destruct x; repeat split; vm_compute; reflexivity.
Qed.

Lemma a2b_b2a_hex (b : bytes) : binascii.a2b (binascii.b2a_hex b) = Return b.
Proof.
  unfold binascii.b2a_hex.
  induction b as [|x b IH]; cbn [flat_map app].
  - reflexivity.
  - destruct (hexdigit_pair_value x) as (Hhi & Hlo & Hx).
    cbn [binascii.a2b]. rewrite Hhi, Hlo. cbn [flat_map] in IH. rewrite IH, Hx.
    reflexivity.
Qed.

Lemma hex_text_bytes (b : bytes) :
  list_byte_of_string (hex_text b) = binascii.b2a_hex b.
Proof.
  unfold hex_text. apply list_byte_of_string_of_list_byte.
Qed.

Lemma hexdigits_are_ascii (l : bytes) :
  Forall (fun c => is_hexdigit c = true) l ->
  forallb (fun c => byte_to_Z c <? 128) l = true.
Proof.
  intro H. apply forallb_forall. intros c Hc.
  rewrite Forall_forall in H. apply H, hexdigit_bounds in Hc.
  apply Z.ltb_lt. lia.
Qed.

Lemma unhexlify_hex_text (b : bytes) : binascii.unhexlify (hex_text b) = Return b.
Proof.
  unfold binascii.unhexlify. cbv zeta. rewrite hex_text_bytes.
  rewrite hexdigits_are_ascii by apply b2a_hex_digits.
  rewrite b2a_hex_length.
  replace (Nat.even (2 * length b)) with true
    by (symmetry; apply Nat.even_spec; exists (length b); reflexivity).
  apply a2b_b2a_hex.
Qed.

Lemma hex_text_truthy (b : bytes) : b <> [] -> truthy (Some (hex_text b)) = true.
Proof.
  intro H. destruct b as [|x b]; [congruence|].
  unfold hex_text, binascii.b2a_hex. cbn [flat_map app string_of_list_byte truthy].
  reflexivity.
Qed.

Lemma is_hex_char_ascii (c : byte) :
  is_hex_char c = true -> (byte_to_Z c <? 128) = true.
Proof.
  unfold is_hex_char, binascii.digit_value. cbv zeta. intro H.
  apply Z.ltb_lt.
  destruct ((48 <=? byte_to_Z c) && (byte_to_Z c <=? 57)) eqn:E1.
  { apply andb_true_iff in E1. destruct E1 as [_ E]. apply Z.leb_le in E. lia. }
  destruct ((97 <=? byte_to_Z c) && (byte_to_Z c <=? 102)) eqn:E2.
  { apply andb_true_iff in E2. destruct E2 as [_ E]. apply Z.leb_le in E. lia. }
  destruct ((65 <=? byte_to_Z c) && (byte_to_Z c <=? 70)) eqn:E3.
  { apply andb_true_iff in E3. destruct E3 as [_ E]. apply Z.leb_le in E. lia. }
  discriminate H.
Qed.

(** Induction two bytes at a time. *)
Lemma pairs_ind (P : bytes -> Prop) :
  P [] -> (forall x, P [x]) -> (forall x y l, P l -> P (x :: y :: l)) ->
  forall l, P l.
Proof.
  intros H0 H1 H2.
  assert (H : forall l, P l /\ forall x, P (x :: l)).
  { induction l as [|y l [IH1 IH2]]; split; auto. }
  intro l. apply H.
Qed.

Lemma a2b_returns_iff (s : bytes) :
  (exists b, binascii.a2b s = Return b) <->
  (Nat.even (length s) = true /\ forallb is_hex_char s = true).
Proof.
  induction s as [|x|x y l IH] using pairs_ind.
  - split; [intros _; split; reflexivity|intros _; eexists; reflexivity].
  - split; [intros [b Hb]; discriminate Hb|intros [H _]; discriminate H].
  - cbn [binascii.a2b length Nat.even forallb]. unfold is_hex_char at 1 2.
    destruct (binascii.digit_value x) as [h|];
      [|split; [intros [b Hb]; discriminate Hb|intros [_ H]; discriminate H]].
    destruct (binascii.digit_value y) as [lo|];
      [|split; [intros [b Hb]; discriminate Hb|intros [_ H]; discriminate H]].
    cbn [andb]. rewrite <- IH. split.
    + intros [b Hb]. destruct (binascii.a2b l) as [r|e]; [eexists; reflexivity|discriminate Hb].
    + intros [r Hr]. rewrite Hr. eexists; reflexivity.
Qed.

Lemma unhexlify_returns_iff (s : string) :
  (exists b, binascii.unhexlify s = Return b) <->
  (Nat.even (length (list_byte_of_string s)) = true /\
   forallb is_hex_char (list_byte_of_string s) = true).
Proof.
  unfold binascii.unhexlify. cbv zeta.
  set (l := list_byte_of_string s).
  destruct (forallb (fun c => byte_to_Z c <? 128) l) eqn:A.
  - destruct (Nat.even (length l)) eqn:E.
    + rewrite a2b_returns_iff, E. reflexivity.
    + split; [intros [b Hb]; discriminate Hb|intros [H _]; discriminate H].
  - split; [intros [b Hb]; discriminate Hb|].
    intros [_ H]. exfalso.
    assert (A' : forallb (fun c => byte_to_Z c <? 128) l = true).
    { apply forallb_forall. intros c Hc.
      apply is_hex_char_ascii. rewrite forallb_forall in H. apply H, Hc. }
    rewrite A in A'. discriminate A'.
Qed.

(** ** The constructor of [HDW] *)

Lemma init_of_seed_bytes (hexseed : string) (b : bytes) :
  truthy (Some hexseed) = true ->
  binascii.unhexlify hexseed = Return b ->
  __init__ (Some hexseed) =
  Return (set_master_chain_code (snd (from_seed b))
            (set_master_private_key (fst (from_seed b)) (set_seed b fresh))).
Proof.
  intros Ht Hb. unfold __init__. rewrite Ht, Hb.
  destruct (from_seed b) as [k c]. reflexivity.
Qed.

(** X1. Constructing an instance from the hexadecimal text of a non-empty
    byte string stores that very byte string as [seed] and the two halves
    of its keyed digest as master key and chain code, on top of a fresh
    instance. *)
Theorem init_from_hex_text (b : bytes) (H : b <> []) :
  __init__ (Some (hex_text b)) =
  Return (set_master_chain_code (snd (from_seed b))
            (set_master_private_key (fst (from_seed b)) (set_seed b fresh))).
Proof.
  apply init_of_seed_bytes.
  - apply hex_text_truthy, H.
  - apply unhexlify_hex_text.
Qed.

Lemma init_from_hex_text_witness :
  [x00; x01; xfe; xff] <> [] /\
  __init__ (Some (hex_text [x00; x01; xfe; xff])) =
  Return (set_master_chain_code (snd (from_seed [x00; x01; xfe; xff]))
            (set_master_private_key (fst (from_seed [x00; x01; xfe; xff]))
               (set_seed [x00; x01; xfe; xff] fresh))).
Proof.
  split; [discriminate|]. apply init_from_hex_text. discriminate.
Defined.

(** X2. The constructor returns an instance exactly when the seed text has
    an even number of characters, all of them hexadecimal digits of either
    case; the empty text is among them.  Any other seed text makes it
    raise. *)
Theorem init_returns_iff (hexseed : string) :
  (exists self, __init__ (Some hexseed) = Return self) <->
  (Nat.even (length (list_byte_of_string hexseed)) = true /\
   forallb is_hex_char (list_byte_of_string hexseed) = true).
Proof.
  rewrite <- unhexlify_returns_iff. unfold __init__.
  destruct hexseed as [|c rest].
  - cbn [truthy]. split; intros _; eexists; reflexivity.
  - cbn [truthy]. destruct (binascii.unhexlify (String c rest)) as [b|e].
    + destruct (from_seed b) as [k cc]. split; intros _; eexists; reflexivity.
    + split; intros [x Hx]; discriminate Hx.
Qed.

Example init_accepts_upper_case :
  __init__ (Some "00FF"%string) = __init__ (Some "00ff"%string).
Proof. vm_compute. reflexivity. Qed.

Example init_refuses_non_hexadecimal :
  __init__ (Some "0g"%string) = Raise (BinasciiError "Non-hexadecimal digit found").
Proof. vm_compute. reflexivity. Qed.

(** X3. On a new instance the seed, the master key and the chain code are
    there together or not at all: with no seed or an empty seed text the
    instance is the fresh one, with none of the three; otherwise all three
    are set, the two keys are 32 bytes long and are the halves computed by
    [from_seed] from the stored seed.  The strength, the mnemonic and the
    signing keys are never set by the constructor. *)
Theorem init_attributes (hexseed : option string) (self : HDW)
    (H : __init__ hexseed = Return self) :
  (truthy hexseed = false -> self = fresh) /\
  (truthy hexseed = true ->
     exists b k c,
       seed self = Some b /\ master_private_key self = Some k /\
       master_chain_code self = Some c /\ from_seed b = (k, c) /\
       length k = 32%nat /\ length c = 32%nat) /\
  strength self = None /\ _mnemonic self = None /\
  _key self = None /\ _verified_key self = None.
Proof.
  unfold __init__ in H. destruct hexseed as [s|].
  - destruct (truthy (Some s)) eqn:Ht.
    + destruct (binascii.unhexlify s) as [b|e]; [|discriminate H].
      pose proof (from_seed_halves b) as [Hk Hc].
      destruct (from_seed b) as [k c] eqn:E. injection H as <-.
      split; [discriminate|]. split; [|repeat split].
      intros _. exists b, k, c. repeat split; assumption.
    + injection H as <-. split; [reflexivity|]. split; [discriminate|repeat split].
  - injection H as <-. split; [reflexivity|]. split; [discriminate|repeat split].
Qed.

Lemma init_attributes_witness :
  __init__ (Some ""%string) = Return fresh /\
  ((truthy (Some ""%string) = false -> fresh = fresh) /\
   (truthy (Some ""%string) = true ->
      exists b k c,
        seed fresh = Some b /\ master_private_key fresh = Some k /\
        master_chain_code fresh = Some c /\ from_seed b = (k, c) /\
        length k = 32%nat /\ length c = 32%nat) /\
   strength fresh = None /\ _mnemonic fresh = None /\
   _key fresh = None /\ _verified_key fresh = None).
Proof.
  split; [reflexivity|]. apply (init_attributes (Some ""%string) fresh). reflexivity.
Defined.

(** ** The mnemonic path, further *)

Lemma strength_cases (nfkd : string -> string) (mnemonic : string) (s : Z) :
  get_mnemonic_strength nfkd mnemonic = Return s ->
  let words := Z.of_nat (length (split_on " " (nfkd mnemonic))) in
  (words = 12 /\ s = 128) \/ (words = 15 /\ s = 160) \/ (words = 18 /\ s = 192) \/
  (words = 21 /\ s = 224) \/ (words = 24 /\ s = 256).
Proof.
  unfold get_mnemonic_strength. cbv zeta.
  set (w := Z.of_nat (length (split_on " " (nfkd mnemonic)))).
  repeat match goal with
         | |- context [Z.eqb ?a ?b] => destruct (Z.eqb_spec a b)
         end;
    intro H; try discriminate H; injection H as <-; lia.
Qed.


(** X4. Whenever [get_mnemonic_strength] returns, the strength is 32 bits
    for every 3 words of the normalized mnemonic: three times the strength
    is thirty-two times the word count, and the strength lies between 128
    and 256. *)
Theorem strength_is_32_bits_per_3_words
    (nfkd : string -> string) (mnemonic : string) (s : Z)
    (H : get_mnemonic_strength nfkd mnemonic = Return s) :
  3 * s = 32 * Z.of_nat (length (split_on " " (nfkd mnemonic))) /\
  128 <= s <= 256.
Proof.
  pose proof (strength_cases nfkd mnemonic s H) as C. cbv zeta in C. lia.
Qed.

Lemma strength_is_32_bits_per_3_words_witness :
  get_mnemonic_strength (fun s => s) abandon_about = Return 128 /\
  (3 * 128 = 32 * Z.of_nat (length (split_on " " abandon_about)) /\ 128 <= 128 <= 256).
Proof.
  split; [vm_compute; reflexivity|].
  apply (strength_is_32_bits_per_3_words (fun s => s) abandon_about 128).
  vm_compute. reflexivity.
Defined.

Lemma from_mnemonic_returns (nfkd : string -> string)
    (mnemonic passphrase : string) (st : HDW) (s : Z) :
  get_mnemonic_strength nfkd (nfkd mnemonic) = Return s ->
  from_mnemonic nfkd mnemonic passphrase st =
  (Return tt,
   set_master_chain_code (snd (from_seed (to_seed (nfkd mnemonic) passphrase)))
     (set_master_private_key (fst (from_seed (to_seed (nfkd mnemonic) passphrase)))
        (set_strength s (set_mnemonic (nfkd mnemonic) st)))).
Proof.
  intro H. unfold from_mnemonic, bind, assign, lift, ret. rewrite H.
  destruct (from_seed (to_seed (nfkd mnemonic) passphrase)) as [k c]. reflexivity.
Qed.

Lemma from_mnemonic_raises (nfkd : string -> string)
    (mnemonic passphrase : string) (st : HDW) (e : exn) :
  get_mnemonic_strength nfkd (nfkd mnemonic) = Raise e ->
  from_mnemonic nfkd mnemonic passphrase st = (Raise e, set_mnemonic (nfkd mnemonic) st).
Proof.
  intro H. unfold from_mnemonic, bind, assign, lift, ret. rewrite H. reflexivity.
Qed.

(** X5. When [from_mnemonic] returns, the instance holds the normalized
    mnemonic, a strength that is 32 bits per 3 words of it, and as master
    key and chain code the two 32-byte halves that [from_seed] computes
    from [to_seed] of the normalized mnemonic and the passphrase; the seed
    attribute, the signing keys and the derivation state are what they
    were. *)
Theorem from_mnemonic_postcondition (nfkd : string -> string)
    (mnemonic passphrase : string) (st st' : HDW)
    (H : from_mnemonic nfkd mnemonic passphrase st = (Return tt, st')) :
  _mnemonic st' = Some (nfkd mnemonic) /\
  (exists s, strength st' = Some s /\
             get_mnemonic_strength nfkd (nfkd mnemonic) = Return s) /\
  (exists k c, master_private_key st' = Some k /\ master_chain_code st' = Some c /\
               from_seed (to_seed (nfkd mnemonic) passphrase) = (k, c) /\
               length k = 32%nat /\ length c = 32%nat) /\
  seed st' = seed st /\ _key st' = _key st /\ _verified_key st' = _verified_key st /\
  core_fields st' = core_fields st.
Proof.
  destruct (get_mnemonic_strength nfkd (nfkd mnemonic)) as [s|e] eqn:E.
  - rewrite (from_mnemonic_returns _ _ _ _ _ E) in H.
    pose proof (from_seed_halves (to_seed (nfkd mnemonic) passphrase)) as [Hk Hc].
    destruct (from_seed (to_seed (nfkd mnemonic) passphrase)) as [k c].
    cbn [fst snd] in H, Hk, Hc.
    apply (f_equal snd) in H. cbn [snd] in H. subst st'.
    split; [reflexivity|]. split; [exists s; split; reflexivity|].
    split; [|repeat split].
    exists k, c. repeat split; assumption.
  - rewrite (from_mnemonic_raises _ _ _ _ _ E) in H. discriminate H.
Qed.

Lemma from_mnemonic_postcondition_witness :
  exists st',
    from_mnemonic (fun s => s) abandon_about "" fresh = (Return tt, st') /\
    _mnemonic st' = Some abandon_about /\ seed st' = None.
Proof.
  eexists. split.
  - apply (from_mnemonic_returns (fun s => s) abandon_about "" fresh 128).
    vm_compute. reflexivity.
  - pose proof (from_mnemonic_postcondition (fun s => s) abandon_about "" fresh _
                  (from_mnemonic_returns (fun s => s) abandon_about "" fresh 128 eq_refl))
      as (Hm & _ & _ & Hs & _).
    split; [exact Hm|exact Hs].
Defined.



Lemma to_seed_length (mnemonic passphrase : string) :
  length (to_seed mnemonic passphrase) = 64%nat.
Proof.
  unfold to_seed, slice_to. cbv zeta.
  rewrite length_firstn, pbkdf2_hmac_sha512_default_length. reflexivity.
Qed.






(** X9. The mnemonic path and the seed path agree: after a [from_mnemonic]
    call that returned, constructing an instance from the hexadecimal text
    of [to_seed] of the normalized mnemonic and the passphrase succeeds and
    gives the same master key and the same chain code, with that seed
    stored. *)
Theorem mnemonic_and_seed_paths_agree (nfkd : string -> string)
    (mnemonic passphrase : string) (st st' : HDW)
    (H : from_mnemonic nfkd mnemonic passphrase st = (Return tt, st')) :
  exists self,
    __init__ (Some (hex_text (to_seed (nfkd mnemonic) passphrase))) = Return self /\
    seed self = Some (to_seed (nfkd mnemonic) passphrase) /\
    master_private_key self = master_private_key st' /\
    master_chain_code self = master_chain_code st'.
Proof.
  destruct (get_mnemonic_strength nfkd (nfkd mnemonic)) as [s|e] eqn:E.
  - rewrite (from_mnemonic_returns _ _ _ _ _ E) in H.
    apply (f_equal snd) in H. cbn [snd] in H. subst st'.
    eexists. split.
    + apply init_of_seed_bytes.
      * apply hex_text_truthy. intro Z0.
        pose proof (to_seed_length (nfkd mnemonic) passphrase) as L.
        rewrite Z0 in L. discriminate L.
      * apply unhexlify_hex_text.
    + destruct (from_seed (to_seed (nfkd mnemonic) passphrase)) as [k c].
      repeat split.
  - rewrite (from_mnemonic_raises _ _ _ _ _ E) in H. discriminate H.
Qed.

Lemma mnemonic_and_seed_paths_agree_witness :
  exists st' self,
    from_mnemonic (fun x => x) abandon_about "" fresh = (Return tt, st') /\
    __init__ (Some (hex_text (to_seed abandon_about ""))) = Return self /\
    master_private_key self = master_private_key st'.
Proof.
  pose proof (from_mnemonic_returns (fun x => x) abandon_about "" fresh 128 eq_refl) as R.
  destruct (mnemonic_and_seed_paths_agree _ _ _ _ _ R) as (self & Hi & _ & Hk & _).
  eexists _, self. split; [exact R|]. split; [exact Hi|exact Hk].
Defined.

(** ** What an import stores *)

Lemma from_xprivate_key_returns (k : bytes) (strict : bool) (st st' : HDW) :
  from_xprivate_key k strict st = (Return tt, st') ->
  strict = false /\ length k = 78%nat /\ st' = imported (binascii.b2a_hex k) st.
Proof.
  intro H.
  destruct (Nat.eq_dec (length (binascii.b2a_hex k)) 156) as [L|L].
  - destruct strict.
    + rewrite (from_xprivate_key_strict k st L) in H. discriminate H.
    + rewrite (from_xprivate_key_lenient k st L) in H.
      apply (f_equal snd) in H. cbn [snd] in H.
      rewrite b2a_hex_length in L. repeat split; [lia|congruence].
  - rewrite (from_xprivate_key_wrong_length k strict st L) in H. discriminate H.
Qed.

Lemma slice_Forall {A} (P : A -> Prop) (lo hi : nat) (l : list A) :
  Forall P l -> Forall P (slice lo hi l).
Proof.
  intro H. unfold slice. apply firstn_Forall, skipn_Forall, H.
Qed.

Lemma hexdigits_value_1 (l : bytes) :
  Forall (fun c => is_hexdigit c = true) l -> length l = 1%nat ->
  48 <= int_from_bytes_big l <= 102.
Proof.
  intros H L. destruct l as [|a [|b l]]; try discriminate L.
  inversion H as [|? ? Ha _]; subst. apply hexdigit_bounds in Ha.
  unfold int_from_bytes_big. cbn [fold_left]. lia.
Qed.

Lemma hexdigits_value_4 (l : bytes) :
  Forall (fun c => is_hexdigit c = true) l -> length l = 4%nat ->
  0x30303030 <= int_from_bytes_big l <= 0x66666666.
Proof.
  intros H L. destruct l as [|a [|b [|c [|d [|e l]]]]]; try discriminate L.
  inversion H as [|? ? Ha H1]; subst. inversion H1 as [|? ? Hb H2]; subst.
  inversion H2 as [|? ? Hc H3]; subst. inversion H3 as [|? ? Hd _]; subst.
  apply hexdigit_bounds in Ha, Hb, Hc, Hd.
  unfold int_from_bytes_big. cbn [fold_left]. lia.
Qed.

(** X10. After an import that returned, the derivation state is made of
    hexadecimal characters: the depth is the code of one such character,
    between 48 and 102 and so never 0; the index is the big-endian number of
    four of them, between 0x30303030 and 0x66666666; the parent fingerprint
    is four of them and the stored private key thirty-two. *)
Theorem import_stores_hexadecimal_characters
    (k : bytes) (strict : bool) (st st' : HDW)
    (H : from_xprivate_key k strict st = (Return tt, st')) :
  (48 <= _depth st' <= 102 /\ _depth st' <> 0) /\
  0x30303030 <= _index st' <= 0x66666666 /\
  (length (_parent_fingerprint st') = 4%nat /\
   Forall (fun c => is_hexdigit c = true) (_parent_fingerprint st')) /\
  (exists mpk, master_private_key st' = Some mpk /\ length mpk = 32%nat /\
               Forall (fun c => is_hexdigit c = true) mpk).
Proof.
  destruct (from_xprivate_key_returns _ _ _ _ H) as (_ & L & ->).
  pose proof (b2a_hex_digits k) as D.
  assert (L' : length (binascii.b2a_hex k) = 156%nat)
    by (rewrite b2a_hex_length, L; reflexivity).
  set (hex := binascii.b2a_hex k) in *. clearbody hex.
  unfold imported. cbv zeta.
  cbn [_depth _index _parent_fingerprint master_private_key
       set_verified_key set_key set_master_chain_code set_master_private_key
       set_index set_parent_fingerprint set_depth].
  assert (Hd : 48 <= int_from_bytes_big (slice 4 5 hex) <= 102).
  { apply hexdigits_value_1; [apply slice_Forall, D|apply length_slice; lia]. }
  split; [lia|]. split.
  { apply hexdigits_value_4; [apply slice_Forall, D|apply length_slice; lia]. }
  split.
  { split; [apply length_slice; lia|apply slice_Forall, D]. }
  eexists. split; [reflexivity|]. unfold slice_to. split.
  - rewrite length_firstn, length_slice by lia. reflexivity.
  - apply firstn_Forall, slice_Forall, D.
Qed.

Lemma import_stores_hexadecimal_characters_witness :
  exists st',
    from_xprivate_key xprv_root_vector false fresh = (Return tt, st') /\
    (48 <= _depth st' <= 102 /\ _depth st' <> 0).
Proof.
  assert (E : from_xprivate_key xprv_root_vector false fresh
              = (Return tt, imported (binascii.b2a_hex xprv_root_vector) fresh)).
  { apply from_xprivate_key_lenient. vm_compute. reflexivity. }
  eexists. split; [exact E|].
  exact (proj1 (import_stores_hexadecimal_characters _ _ _ _ E)).
Defined.

(** X11. After an import that returned, the signing key belongs to the
    stored private key: its secret exponent is the big-endian value of the
    32 stored bytes, it lies between 1 and the order of secp256k1, and the
    verifying key is the one derived from that signing key. *)
Theorem import_signing_key_matches_private_key
    (k : bytes) (strict : bool) (st st' : HDW)
    (H : from_xprivate_key k strict st = (Return tt, st')) :
  exists mpk sk,
    master_private_key st' = Some mpk /\
    _key st' = Some sk /\
    ecdsa.from_string mpk = Return sk /\
    ecdsa.secexp sk = int_from_bytes_big mpk /\
    1 <= ecdsa.secexp sk < ecdsa.SECP256k1_order /\
    _verified_key st' = Some (ecdsa.get_verifying_key sk).
Proof.
  destruct (from_xprivate_key_returns _ _ _ _ H) as (_ & L & ->).
  pose proof (b2a_hex_digits k) as D.
  assert (L' : length (binascii.b2a_hex k) = 156%nat)
    by (rewrite b2a_hex_length, L; reflexivity).
  set (hex := binascii.b2a_hex k) in *. clearbody hex.
  assert (F : ecdsa.from_string (slice_to 32 (slice 13 45 hex))
              = Return (ecdsa.mkSigningKey
                          (int_from_bytes_big (slice_to 32 (slice 13 45 hex))))).
  { apply hex_text_is_a_secret_exponent.
    - apply firstn_Forall, slice_Forall, D.
    - unfold slice_to. rewrite length_firstn, length_slice by lia. reflexivity. }
  exists (slice_to 32 (slice 13 45 hex)),
         (ecdsa.mkSigningKey (int_from_bytes_big (slice_to 32 (slice 13 45 hex)))).
  split; [reflexivity|]. split; [reflexivity|]. split; [exact F|].
  split; [reflexivity|]. split; [|reflexivity].
  cbn [ecdsa.secexp].
  unfold ecdsa.from_string in F.
  destruct (length (slice_to 32 (slice 13 45 hex)) =? ecdsa.SECP256k1_baselen)%nat;
    [|discriminate F].
  cbv zeta in F.
  destruct ((1 <=? int_from_bytes_big (slice_to 32 (slice 13 45 hex))) &&
            (int_from_bytes_big (slice_to 32 (slice 13 45 hex)) <? ecdsa.SECP256k1_order))
    eqn:B; [|discriminate F].
  apply andb_true_iff in B. destruct B as [B1 B2].
  apply Z.leb_le in B1. apply Z.ltb_lt in B2. lia.
Qed.

Lemma import_signing_key_matches_private_key_witness :
  exists st' mpk sk,
    from_xprivate_key xprv_root_vector false fresh = (Return tt, st') /\
    master_private_key st' = Some mpk /\ _key st' = Some sk /\
    ecdsa.secexp sk = int_from_bytes_big mpk.
Proof.
  assert (E : from_xprivate_key xprv_root_vector false fresh
              = (Return tt, imported (binascii.b2a_hex xprv_root_vector) fresh)).
  { apply from_xprivate_key_lenient. vm_compute. reflexivity. }
  destruct (import_signing_key_matches_private_key _ _ _ _ E)
    as (mpk & sk & Hm & Hk & _ & Hs & _).
  exists (imported (binascii.b2a_hex xprv_root_vector) fresh), mpk, sk.
  repeat split; assumption.
Defined.

(** ** Which bytes of the key an import reads *)

Lemma b2a_hex_firstn (n : nat) (k : bytes) :
  firstn (2 * n) (binascii.b2a_hex k) = binascii.b2a_hex (firstn n k).
Proof.
  unfold binascii.b2a_hex. revert k.
  induction n as [|n IH]; intro k.
  - reflexivity.
  - destruct k as [|x k]; [reflexivity|].
    replace (2 * S n)%nat with (S (S (2 * n))) by lia.
    cbn [flat_map app firstn]. rewrite IH. reflexivity.
Qed.

Lemma slice_of_prefix {A} (lo hi m : nat) (l : list A) :
  (hi <= m)%nat -> slice lo hi (firstn m l) = slice lo hi l.
Proof.
  intro H. unfold slice.
  rewrite skipn_firstn_comm, firstn_firstn. f_equal. lia.
Qed.

Lemma imported_of_prefix (hex : bytes) (st : HDW) :
  imported (firstn 46 hex) st = imported hex st.
Proof.
  unfold imported. cbv zeta. rewrite !slice_of_prefix by lia. reflexivity.
Qed.

(** X12. An import reads the first 23 bytes of the key and nothing else:
    two keys of 78 bytes that agree on their first 23 bytes give the same
    outcome and leave the same instance, whatever their other 55 bytes
    are. *)
Theorem import_reads_only_the_first_23_bytes
    (k1 k2 : bytes) (strict : bool) (st : HDW)
    (L1 : length k1 = 78%nat) (L2 : length k2 = 78%nat)
    (P : firstn 23 k1 = firstn 23 k2) :
  from_xprivate_key k1 strict st = from_xprivate_key k2 strict st.
Proof.
  assert (H1 : length (binascii.b2a_hex k1) = 156%nat)
    by (rewrite b2a_hex_length, L1; reflexivity).
  assert (H2 : length (binascii.b2a_hex k2) = 156%nat)
    by (rewrite b2a_hex_length, L2; reflexivity).
  destruct strict.
  - rewrite !from_xprivate_key_strict by assumption. reflexivity.
  - rewrite !from_xprivate_key_lenient by assumption. f_equal.
    rewrite <- (imported_of_prefix (binascii.b2a_hex k1)),
            <- (imported_of_prefix (binascii.b2a_hex k2)).
    change 46%nat with (2 * 23)%nat. rewrite !b2a_hex_firstn, P. reflexivity.
Qed.

Lemma import_reads_only_the_first_23_bytes_witness :
  length xprv_root_vector = 78%nat /\
  length (firstn 23 xprv_root_vector ++ repeat xff 55) = 78%nat /\
  firstn 23 xprv_root_vector = firstn 23 (firstn 23 xprv_root_vector ++ repeat xff 55) /\
  xprv_root_vector <> firstn 23 xprv_root_vector ++ repeat xff 55 /\
  from_xprivate_key xprv_root_vector false fresh =
  from_xprivate_key (firstn 23 xprv_root_vector ++ repeat xff 55) false fresh.
Proof.
  split; [vm_compute; reflexivity|]. split; [vm_compute; reflexivity|].
  split; [vm_compute; reflexivity|]. split; [vm_compute; discriminate|].
  apply import_reads_only_the_first_23_bytes; vm_compute; reflexivity.
Defined.

(** ** Imports in sequence and the strict flag *)

(** X13. An import that returns decides the depth, the index, the parent
    fingerprint, both keys and both signing keys on its own: whatever an
    earlier [from_xprivate_key] call did, with either flag, returned or
    raised, the instance ends as if that earlier call had never been
    made. *)
Theorem last_import_wins
    (k1 k2 : bytes) (strict1 : bool) (st : HDW) (L2 : length k2 = 78%nat) :
  from_xprivate_key k2 false (snd (from_xprivate_key k1 strict1 st)) =
  from_xprivate_key k2 false st.
Proof.
  assert (H2 : length (binascii.b2a_hex k2) = 156%nat)
    by (rewrite b2a_hex_length, L2; reflexivity).
  rewrite !from_xprivate_key_lenient by assumption. f_equal.
  destruct (from_xprivate_key k1 strict1 st) as [[[]|e] st1] eqn:E; cbn [snd].
  - destruct (from_xprivate_key_returns _ _ _ _ E) as (_ & _ & ->). reflexivity.
  - destruct (from_xprivate_key_failure _ _ _ _ _ E) as [-> _]. reflexivity.
Qed.

Lemma last_import_wins_witness :
  length xprv_root_vector = 78%nat /\
  from_xprivate_key xprv_root_vector false
    (snd (from_xprivate_key sample_child_key false fresh)) =
  from_xprivate_key xprv_root_vector false fresh.
Proof.
  split; [vm_compute; reflexivity|].
  apply last_import_wins. vm_compute. reflexivity.
Defined.

(** X14. With the strict flag set [from_xprivate_key] never returns: for
    every key, of any length and with any version bytes, it raises the
    invalid-length or the not-a-root error and leaves the instance as it
    was. *)
Theorem strict_import_never_returns (k : bytes) (st : HDW) :
  (length k <> 78%nat /\
   from_xprivate_key k true st = (Raise InvalidExtendedKeyLength, st)) \/
  (length k = 78%nat /\
   from_xprivate_key k true st = (Raise NotARootKey, st)).
Proof.
  destruct (Nat.eq_dec (length k) 78) as [L|L].
  - right. split; [exact L|]. apply from_xprivate_key_strict.
    rewrite b2a_hex_length, L. reflexivity.
  - left. split; [exact L|]. apply from_xprivate_key_wrong_length.
    rewrite b2a_hex_length. lia.
Qed.

(** X15. Without the strict flag [from_xprivate_key] returns exactly for
    the keys of 78 bytes, and [_deserialize_xprivate_key] in its default
    mode returns its six parts exactly for those keys. *)
Theorem import_returns_iff_78_bytes (k : bytes) (st : HDW) :
  ((exists st', from_xprivate_key k false st = (Return tt, st')) <-> length k = 78%nat) /\
  ((exists p, _deserialize_xprivate_key k true = Return p) <-> length k = 78%nat).
Proof.
  split; split.
  - intros [st' H]. apply (from_xprivate_key_returns _ _ _ _ H).
  - intro L. eexists. apply from_xprivate_key_lenient.
    rewrite b2a_hex_length, L. reflexivity.
  - intros [p H].
    destruct (Nat.eq_dec (length (decode_xprivate_key k true)) 156) as [E|E].
    + cbn [decode_xprivate_key] in E. rewrite b2a_hex_length in E. lia.
    + rewrite (deserialize_wrong_length k true E) in H. discriminate H.
  - intro L. eexists. apply deserialize_right_length.
    cbn [decode_xprivate_key]. rewrite b2a_hex_length, L. reflexivity.
Qed.

(** X16. [from_xprivate_key] never touches the strength, the seed or the
    mnemonic of the instance, whether it returns or raises: after an import
    they still describe whatever was derived before. *)
Theorem import_keeps_seed_and_mnemonic (k : bytes) (strict : bool) (st : HDW) :
  strength (snd (from_xprivate_key k strict st)) = strength st /\
  seed (snd (from_xprivate_key k strict st)) = seed st /\
  _mnemonic (snd (from_xprivate_key k strict st)) = _mnemonic st.
Proof.
  destruct (from_xprivate_key k strict st) as [[[]|e] st1] eqn:E; cbn [snd].
  - destruct (from_xprivate_key_returns _ _ _ _ E) as (_ & _ & ->). repeat split.
  - destruct (from_xprivate_key_failure _ _ _ _ _ E) as [-> _]. repeat split.
Qed.

Lemma imported_node_is_never_a_root (k : bytes) (st : HDW) :
  length k = 78%nat ->
  _depth (imported (binascii.b2a_hex k) st) <> 0 /\
  _key (imported (binascii.b2a_hex k) st) <> None.
Proof.
  intro L.
  assert (L' : length (binascii.b2a_hex k) = 156%nat)
    by (rewrite b2a_hex_length, L; reflexivity).
  assert (Hd : 48 <= int_from_bytes_big (slice 4 5 (binascii.b2a_hex k)) <= 102).
  { apply hexdigits_value_1;
      [apply slice_Forall, b2a_hex_digits|apply length_slice; lia]. }
  unfold imported. cbv zeta.
  cbn [_depth _key set_verified_key set_key set_master_chain_code set_master_private_key
       set_index set_parent_fingerprint set_depth].
  split; [lia|discriminate].
Qed.

(** X17. Deriving from a mnemonic on an instance that imported a key
    before replaces the master key and the chain code, by two 32-byte
    values, but keeps the imported derivation state and signing key: the
    depth is still the non-zero one of the import and [_key] is still the
    key of the import. *)
Theorem mnemonic_after_import_keeps_the_imported_node (nfkd : string -> string)
    (k : bytes) (mnemonic passphrase : string) (st st1 st2 : HDW)
    (H1 : from_xprivate_key k false st = (Return tt, st1))
    (H2 : from_mnemonic nfkd mnemonic passphrase st1 = (Return tt, st2)) :
  core_fields st2 = core_fields st1 /\
  _depth st2 <> 0 /\
  _key st2 = _key st1 /\ _key st2 <> None /\
  _verified_key st2 = _verified_key st1 /\
  master_private_key st2 = Some (fst (from_seed (to_seed (nfkd mnemonic) passphrase))) /\
  (exists c, master_chain_code st2 = Some c /\ length c = 32%nat).
Proof.
  assert (N : _depth st1 <> 0 /\ _key st1 <> None).
  { destruct (from_xprivate_key_returns _ _ _ _ H1) as (_ & L & ->).
    apply imported_node_is_never_a_root, L. }
  clear H1. destruct N as [D1 K1].
  destruct (get_mnemonic_strength nfkd (nfkd mnemonic)) as [s|e] eqn:E;
    [|rewrite (from_mnemonic_raises _ _ _ _ _ E) in H2; discriminate H2].
  rewrite (from_mnemonic_returns _ _ _ _ _ E) in H2.
  pose proof (from_seed_halves (to_seed (nfkd mnemonic) passphrase)) as [_ Hc].
  destruct (from_seed (to_seed (nfkd mnemonic) passphrase)) as [km cm].
  cbn [fst snd] in H2, Hc |- *.
  apply (f_equal snd) in H2. cbn [snd] in H2. subst st2.
  repeat split; try assumption.
  exists cm. split; [reflexivity|exact Hc].
Qed.

Lemma mnemonic_after_import_keeps_the_imported_node_witness :
  exists st1 st2,
    from_xprivate_key xprv_root_vector false fresh = (Return tt, st1) /\
    from_mnemonic (fun x => x) abandon_about "" st1 = (Return tt, st2) /\
    core_fields st2 = core_fields st1 /\ _depth st2 <> 0.
Proof.
  assert (E1 : from_xprivate_key xprv_root_vector false fresh
               = (Return tt, imported (binascii.b2a_hex xprv_root_vector) fresh)).
  { apply from_xprivate_key_lenient. vm_compute. reflexivity. }
  pose proof (from_mnemonic_returns (fun x => x) abandon_about ""
                (imported (binascii.b2a_hex xprv_root_vector) fresh) 128 eq_refl) as E2.
  destruct (mnemonic_after_import_keeps_the_imported_node _ _ _ _ _ _ _ E1 E2)
    as (Hc & Hd & _).
  eexists _, _. split; [exact E1|]. split; [exact E2|]. split; [exact Hc|exact Hd].
Defined.

(** ** The six parts *)

Lemma skipn_slice {A} (lo hi : nat) (l : list A) :
  (lo <= hi)%nat -> skipn lo l = slice lo hi l ++ skipn hi l.
Proof.
  intro H. unfold slice.
  rewrite <- (firstn_skipn (hi - lo) (skipn lo l)) at 1.
  rewrite skipn_skipn. replace (hi - lo + lo)%nat with hi by lia. reflexivity.
Qed.

(** X18. When [_deserialize_xprivate_key] returns, in either mode, its six
    parts have 4, 1, 4, 4, 32 and 110 characters and are consecutive pieces
    of the 156-character text, in order, with exactly one character left
    out between the fifth and the sixth. *)
Theorem deserialize_parts_cover_the_text
    (k : bytes) (encoded : bool) (p : parts)
    (H : _deserialize_xprivate_key k encoded = Return p) :
  (length (part0 p) = 4 /\ length (part1 p) = 1 /\ length (part2 p) = 4 /\
   length (part3 p) = 4 /\ length (part4 p) = 32 /\ length (part5 p) = 110)%nat /\
  exists c,
    decode_xprivate_key k encoded =
    part0 p ++ part1 p ++ part2 p ++ part3 p ++ part4 p ++ [c] ++ part5 p.
Proof.
  destruct (Nat.eq_dec (length (decode_xprivate_key k encoded)) 156) as [L|L];
    [|rewrite (deserialize_wrong_length k encoded L) in H; discriminate H].
  rewrite (deserialize_right_length k encoded L) in H. cbv zeta in H.
  set (d := decode_xprivate_key k encoded) in *. clearbody d.
  assert (E : p = (slice_to 4 d, slice 4 5 d, slice 5 9 d, slice 9 13 d,
                   slice 13 45 d, slice_from 46 d)) by congruence.
  subst p. cbn [part0 part1 part2 part3 part4 part5]. split.
  - unfold slice_to, slice_from.
    rewrite length_firstn, length_skipn, !length_slice by lia.
    rewrite L. repeat split.
  - assert (G : exists c, skipn 45 d = [c] ++ skipn 46 d).
    { rewrite (skipn_slice 45 46 d) by lia.
      assert (L1 : length (slice 45 46 d) = 1%nat) by (apply length_slice; lia).
      destruct (slice 45 46 d) as [|c [|c' r]]; try discriminate L1.
      exists c. reflexivity. }
    destruct G as [c G]. exists c.
    unfold slice_to, slice_from. rewrite <- G.
    rewrite <- (skipn_slice 13 45 d), <- (skipn_slice 9 13 d),
            <- (skipn_slice 5 9 d), <- (skipn_slice 4 5 d) by lia.
    symmetry. apply firstn_skipn.
Qed.

Lemma deserialize_parts_cover_the_text_witness :
  exists p c,
    _deserialize_xprivate_key xprv_root_vector true = Return p /\
    length (part5 p) = 110%nat /\
    decode_xprivate_key xprv_root_vector true =
    part0 p ++ part1 p ++ part2 p ++ part3 p ++ part4 p ++ [c] ++ part5 p.
Proof.
  assert (E : _deserialize_xprivate_key xprv_root_vector true =
              Return (let d := decode_xprivate_key xprv_root_vector true in
                      (slice_to 4 d, slice 4 5 d, slice 5 9 d, slice 9 13 d,
                       slice 13 45 d, slice_from 46 d))).
  { apply deserialize_right_length. vm_compute. reflexivity. }
  destruct (deserialize_parts_cover_the_text _ _ _ E) as [(_ & _ & _ & _ & _ & L5) [c Hc]].
  eexists _, c. split; [exact E|]. split; [exact L5|exact Hc].
Defined.

(** ** The [HDWallet] wrapper *)

Lemma truthy_empty_right (k p : string) :
  k = ""%string \/ p = ""%string -> truthy (Some k) && truthy (Some p) = false.
Proof.
  intros [-> | ->]; [reflexivity|]. cbn [truthy]. apply andb_false_r.
Qed.

(** X19. The constructor of the wrapper loads a key only when it is given
    both a non-empty key and a non-empty path.  With either one missing or
    empty, the other is ignored without an error: the wallet is the one the
    constructor builds from the mnemonic alone. *)
Theorem wrapper_ignores_a_key_without_a_path (L : Collaborator)
    (is_mainnet : bool) (xprivate_key path mnemonic : option string)
    (H : truthy xprivate_key && truthy path = false) :
  Wrapper.__init__ is_mainnet xprivate_key path mnemonic =
  Wrapper.__init__ is_mainnet None None mnemonic.
Proof.
  unfold Wrapper.__init__. cbv zeta.
  destruct (ext_HDWallet (if is_mainnet then BTC else BTCTEST)) as [h0|e]; [|reflexivity].
  destruct xprivate_key as [k|]; [|reflexivity].
  destruct path as [p|]; [|destruct (match mnemonic with
                                      | Some m => _
                                      | None => _
                                      end); reflexivity].
  rewrite H. reflexivity.
Qed.

Lemma wrapper_ignores_a_key_without_a_path_witness :
  truthy (Some "xprv9s21ZrQH143K3QTDL4LXw2F7HEK3wJUD2nW2nRk4stbPy"%string) && truthy None = false /\
  @Wrapper.__init__ recording true
     (Some "xprv9s21ZrQH143K3QTDL4LXw2F7HEK3wJUD2nW2nRk4stbPy"%string) None None =
  @Wrapper.__init__ recording true None None None.
Proof.
  split; [reflexivity|].
  apply (wrapper_ignores_a_key_without_a_path recording). reflexivity.
Defined.

(** X20. The class method [HDWallet.from_xprivate_key] raises its assertion
    error when no path is given; an empty path, or an empty key, passes the
    assertion and silently gives the bare wallet of the network, with no
    key loaded. *)
Theorem wrapper_from_xprivate_key_without_path (L : Collaborator)
    (is_mainnet : bool) (xprivate_key : string) :
  Wrapper.from_xprivate_key is_mainnet xprivate_key None =
    inr (Wrapper.AssertionError "Path must be provided with xprivate key") /\
  (forall path,
     xprivate_key = ""%string \/ path = ""%string ->
     Wrapper.from_xprivate_key is_mainnet xprivate_key (Some path) =
     Wrapper.__init__ is_mainnet None None None).
Proof.
  split; [reflexivity|].
  intros path H. unfold Wrapper.from_xprivate_key, Wrapper.__init__. cbv zeta.
  destruct (ext_HDWallet (if is_mainnet then BTC else BTCTEST)) as [h0|e]; [|reflexivity].
  cbn [Wrapper.and_then]. rewrite (truthy_empty_right _ _ H). reflexivity.
Qed.

Lemma wrapper_from_xprivate_key_without_path_witness :
  @Wrapper.from_xprivate_key recording true "xprv9s21ZrQH143K3QTDL4LXw2F7HEK3wJUD2nW2nRk4stbPy"
     (Some ""%string) =
  inl (@Wrapper.mkHDWallet recording (mkRecorded BTC None None [])).
Proof.
  rewrite (proj2 (wrapper_from_xprivate_key_without_path recording true
                    "xprv9s21ZrQH143K3QTDL4LXw2F7HEK3wJUD2nW2nRk4stbPy")
             ""%string (or_intror eq_refl)).
  reflexivity.
Defined.

(** X21. The wrapper's [from_path] resets the derivation before it applies
    the path.  For a package whose reset undoes every applied path and is
    stable when repeated, paths therefore do not pile up: after a
    [from_path] call that returned, a second [from_path] does exactly what
    it would have done on the wallet as it was before the first. *)
Theorem wrapper_paths_do_not_accumulate (L : Collaborator)
    (reset_is_stable : forall h h',
        ext_clean_derivation h = (h', None) -> ext_clean_derivation h' = (h', None))
    (reset_undoes_paths : forall p h h',
        ext_from_path p h = (h', None) -> ext_clean_derivation h' = ext_clean_derivation h)
    (p1 p2 : string) (w w1 : Wrapper.HDWallet)
    (H : Wrapper.from_path p1 w = (w1, None)) :
  Wrapper.from_path p2 w1 = Wrapper.from_path p2 w.
Proof.
  unfold Wrapper.from_path in *.
  destruct (ext_clean_derivation (Wrapper.hdw w)) as [h1 [e|]] eqn:C; [discriminate H|].
  destruct (ext_from_path p1 h1) as [h2 [e|]] eqn:P; [discriminate H|].
  injection H as <-. cbn [Wrapper.hdw].
  rewrite (reset_undoes_paths _ _ _ P), (reset_is_stable _ _ C). reflexivity.
Qed.

Lemma wrapper_paths_do_not_accumulate_witness :
  @Wrapper.from_path recording "m/44'/0'/0'/0/1"
    (fst (@Wrapper.from_path recording "m/44'/0'/0'/0/0"
            (@Wrapper.mkHDWallet recording (mkRecorded BTC None (Some "xprv"%string) [])))) =
  @Wrapper.from_path recording "m/44'/0'/0'/0/1"
    (@Wrapper.mkHDWallet recording (mkRecorded BTC None (Some "xprv"%string) [])).
Proof.
  apply (wrapper_paths_do_not_accumulate recording) with (p1 := "m/44'/0'/0'/0/0"%string).
  - intros h h' E. cbn in E |- *. injection E as <-. reflexivity.
  - intros p h h' E. cbn in E |- *. injection E as <-. reflexivity.
  - reflexivity.
Defined.
